(** * AIWebSearchAgent: a shallow embedding of [app.py]

    The development follows the source file top to bottom:

    - Python values, dictionaries and exceptions;
    - the outside world: HTTP, the HTML parser, the chat-completion
      service, the JSON decoder and the clock are interfaces
      ([Services]); the state that the agent threads through its calls
      is [World];
    - [str.format], as far as [process_data] uses it;
    - [AIWebSearchAgent.search_web], [extract_info_with_llm] and
      [process_data];
    - the summary table of [display_results].

    Strings are sequences of 8-bit characters; a Python [str] is carried
    by its UTF-8 bytes, so every ASCII character (braces, brackets,
    digits, quotes) is itself. *)

From Stdlib Require Import String Ascii List ZArith Lia Bool.
From Stdlib Require Import DecimalString.
Import ListNotations.
Open Scope string_scope.
Set Warnings "-register-all".

(** ** Characters that a string literal cannot hold *)

Definition dq : string := String (ascii_of_nat 34) EmptyString.
Definition nl : string := String (ascii_of_nat 10) EmptyString.

(** ** Python values *)

(** The values that flow through the agent: JSON documents decoded by
    [json.loads], and the dictionaries the agent builds.  A [dict] keeps
    its insertion order, so it is an association list; a float is
    carried by its [repr]. *)
Inductive pyval : Type :=
| PNone
| PBool (b : bool)
| PInt (z : Z)
| PFloat (repr : string)
| PStr (s : string)
| PList (l : list pyval)
| PDict (d : list (string * pyval)).

Definition dict := list (string * pyval).

(** [d[k]] and [d.get(k)]: the first binding of [k]. *)
Fixpoint dict_get (k : string) (d : dict) : option pyval :=
  match d with
  | [] => None
  | (k', v) :: d' => if String.eqb k k' then Some v else dict_get k d'
  end.

(** [k in d] *)
Definition dict_has (k : string) (d : dict) : bool :=
  match dict_get k d with Some _ => true | None => false end.

(** [d.get(k, default)] *)
Definition dict_get_default (k : string) (default : pyval) (d : dict) : pyval :=
  match dict_get k d with Some v => v | None => default end.

Definition dict_keys (d : dict) : list string := map fst d.

(** A cell of the data frame read by [pd.read_csv]: text, integer,
    float (a missing cell is the float [nan]) or boolean. *)
Inductive scalar : Type :=
| SStr (s : string)
| SInt (z : Z)
| SFloat (repr : string)
| SBool (b : bool).

Definition scalar_val (c : scalar) : pyval :=
  match c with
  | SStr s => PStr s
  | SInt z => PInt z
  | SFloat r => PFloat r
  | SBool b => PBool b
  end.

(** [str(c)] *)
Definition scalar_str (c : scalar) : string :=
  match c with
  | SStr s => s
  | SInt z => NilZero.string_of_int (Z.to_int z)
  | SFloat r => r
  | SBool true => "True"
  | SBool false => "False"
  end.

(** ** Exceptions *)

(** An exception is its class and the text [str(e)]. *)
Record exn : Type := Exn { exn_class : string; exn_str : string }.

Inductive result (A : Type) : Type :=
| Ok (a : A)
| Raise (e : exn).
Arguments Ok {A} a.
Arguments Raise {A} e.

Definition is_ok {A} (r : result A) : bool :=
  match r with Ok _ => true | Raise _ => false end.

Definition ValueError (msg : string) : exn := Exn "ValueError" msg.
Definition IndexError (msg : string) : exn := Exn "IndexError" msg.
Definition TypeError (msg : string) : exn := Exn "TypeError" msg.
Definition AttributeError (msg : string) : exn := Exn "AttributeError" msg.

(** [repr] of a string, for the text of a [KeyError]: single quotes
    unless the string holds a single quote and no double quote;
    backslash, the chosen quote and control characters are escaped.
    This is [repr] for ASCII text; of the characters beyond ASCII,
    Python also escapes those that are not printable, which are kept
    as they are here. *)
Definition hex_digit (n : nat) : ascii :=
  if Nat.ltb n 10 then ascii_of_nat (48 + n) else ascii_of_nat (87 + n).

Fixpoint contains_char (c : ascii) (s : string) : bool :=
  match s with
  | EmptyString => false
  | String c' s' => Ascii.eqb c c' || contains_char c s'
  end.

Definition repr_char (quote : ascii) (c : ascii) : string :=
  let n := nat_of_ascii c in
  if Ascii.eqb c "\"%char then "\\"
  else if Ascii.eqb c quote then String "\"%char (String c EmptyString)
  else if Nat.eqb n 10 then "\n"
  else if Nat.eqb n 13 then "\r"
  else if Nat.eqb n 9 then "\t"
  else if Nat.ltb n 32 || Nat.eqb n 127
       then "\x" ++ String (hex_digit (n / 16)) (String (hex_digit (n mod 16)) EmptyString)
  else String c EmptyString.

Fixpoint repr_body (quote : ascii) (s : string) : string :=
  match s with
  | EmptyString => EmptyString
  | String c s' => repr_char quote c ++ repr_body quote s'
  end.

Definition py_repr (s : string) : string :=
  let quote :=
    if contains_char "'"%char s && negb (contains_char (ascii_of_nat 34) s)
    then ascii_of_nat 34 else "'"%char in
  String quote (repr_body quote s ++ String quote EmptyString).

(** [KeyError(key)]: its [str] is the [repr] of the key. *)
Definition KeyError (key : string) : exn := Exn "KeyError" (py_repr key).

(** ** The outside world *)

(** A parsed HTML document, as [BeautifulSoup(text, 'html.parser')]
    builds it: text nodes and tags; a tag carries the values of its
    [class] attribute. *)
Inductive node : Type :=
| Text (s : string)
| Tag (name : string) (classes : list string) (children : list node).

(** A request to [client.chat.completions.create]. *)
Record chat_message : Type := Message { role : string; content : string }.

Record chat_request : Type := ChatRequest {
  model : string;
  messages : list chat_message;
  temperature : Z;
  max_tokens : Z
}.

Definition headers := list (string * string).

(** The libraries and remote services the agent calls.  What a remote
    service answers may change from one call to the next, so it is a
    function of the number of calls made before as well as of the
    request.
    - [requests_get n url hdrs]: [requests.get(url, headers=hdrs).text]
      at the call number [n], or the exception it raises;
    - [html_parser text]: the document [BeautifulSoup] builds;
    - [chat_create n req]: the [message.content] of each of the
      [choices] of the completion ([None] when a message has no
      content), or the exception the call raises;
    - [json_loads text]: [json.loads(text)];
    - [strftime n]: [time.strftime("%Y-%m-%d %H:%M:%S")] at the read
      number [n];
    - [format_field v rest conv spec]: what [str.format] writes for a
      replacement field that names [v] and carries attribute or index
      lookups [rest], a conversion [conv] or a format specification
      [spec]. *)
Record Services : Type := {
  requests_get : nat -> string -> headers -> result string;
  html_parser : string -> result node;
  chat_create : nat -> chat_request -> result (list (option string));
  json_loads : string -> result pyval;
  strftime : nat -> string;
  format_field : scalar -> string -> option ascii -> string -> result string
}.

(** What the agent has done to the world so far. *)
Record World : Type := {
  http_calls : nat;
  http_log : list (string * headers);
  chat_calls : nat;
  chat_log : list chat_request;
  clock_reads : nat;
  slept : Z
}.

Definition world0 : World :=
  {| http_calls := 0; http_log := []; chat_calls := 0; chat_log := [];
     clock_reads := 0; slept := 0 |}.

(** ** Computations: state and exceptions *)

Definition M (A : Type) : Type := World -> result A * World.

Definition ret {A} (a : A) : M A := fun w => (Ok a, w).

Definition bind {A B} (m : M A) (k : A -> M B) : M B :=
  fun w => match m w with
           | (Ok a, w') => k a w'
           | (Raise e, w') => (Raise e, w')
           end.

Definition raise {A} (e : exn) : M A := fun w => (Raise e, w).

(** [try: body  except Exception as e: handler(e)] *)
Definition try_except {A} (body : M A) (handler : exn -> M A) : M A :=
  fun w => match body w with
           | (Ok a, w') => (Ok a, w')
           | (Raise e, w') => handler e w'
           end.

Definition lift {A} (r : result A) : M A := fun w => (r, w).

Notation "x <- m ;; k" := (bind m (fun x => k))
  (at level 61, m at next level, right associativity).
Notation "m ;;; k" := (bind m (fun _ => k))
  (at level 61, right associativity).

(** The marks the four effects leave on the world. *)
Definition log_http (url : string) (hdrs : headers) (w : World) : World :=
  {| http_calls := S (http_calls w);
     http_log := (http_log w ++ [(url, hdrs)])%list;
     chat_calls := chat_calls w; chat_log := chat_log w;
     clock_reads := clock_reads w; slept := slept w |}.

Definition log_chat (req : chat_request) (w : World) : World :=
  {| http_calls := http_calls w; http_log := http_log w;
     chat_calls := S (chat_calls w);
     chat_log := (chat_log w ++ [req])%list;
     clock_reads := clock_reads w; slept := slept w |}.

Definition tick_clock (w : World) : World :=
  {| http_calls := http_calls w; http_log := http_log w;
     chat_calls := chat_calls w; chat_log := chat_log w;
     clock_reads := S (clock_reads w); slept := slept w |}.

Definition add_sleep (seconds : Z) (w : World) : World :=
  {| http_calls := http_calls w; http_log := http_log w;
     chat_calls := chat_calls w; chat_log := chat_log w;
     clock_reads := clock_reads w; slept := (slept w + seconds)%Z |}.

Section Agent.

Variable svc : Services.

Definition http_get (url : string) (hdrs : headers) : M string :=
  fun w => (requests_get svc (http_calls w) url hdrs, log_http url hdrs w).

Definition chat_completions_create (req : chat_request) : M (list (option string)) :=
  fun w => (chat_create svc (chat_calls w) req, log_chat req w).

Definition time_strftime : M string :=
  fun w => (Ok (strftime svc (clock_reads w)), tick_clock w).

Definition time_sleep (seconds : Z) : M unit :=
  fun w => (Ok tt, add_sleep seconds w).

(** ** [str.format]

    [template.format(entity=entity)]: one keyword argument and no
    positional one.  The template is read one character at a time, as
    the format-string scanner reads it; the state says what the
    scanner is inside. *)

Inductive fmt_state : Type :=
| InText
| SeenOpen
| SeenClose
| InName (name : string) (bracket : bool)
| SeenBang (name : string)
| SeenConv (name : string) (conv : ascii)
| InSpec (name : string) (conv : option ascii) (spec : string) (depth : nat).

Inductive fmt_action : Type :=
| Goto (st : fmt_state)
| Emit (c : ascii)
| Field (name : string) (conv : option ascii) (spec : string)
| Fail (e : exn).

Definition snoc (s : string) (c : ascii) : string := s ++ String c EmptyString.

(** Inside a field name: [{] is refused; [[] opens an index that runs to
    the next []]; [}], [:] and [!] end the name. *)
Definition name_step (name : string) (c : ascii) : fmt_action :=
  if Ascii.eqb c "{" then Fail (ValueError "unexpected '{' in field name")
  else if Ascii.eqb c "[" then Goto (InName (snoc name c) true)
  else if Ascii.eqb c "}" then Field name None EmptyString
  else if Ascii.eqb c ":" then Goto (InSpec name None EmptyString 0)
  else if Ascii.eqb c "!" then Goto (SeenBang name)
  else Goto (InName (snoc name c) false).

Definition fmt_step (st : fmt_state) (c : ascii) : fmt_action :=
  match st with
  | InText =>
      if Ascii.eqb c "{" then Goto SeenOpen
      else if Ascii.eqb c "}" then Goto SeenClose
      else Emit c
  | SeenOpen =>
      if Ascii.eqb c "{" then Emit c else name_step EmptyString c
  | SeenClose =>
      if Ascii.eqb c "}" then Emit c
      else Fail (ValueError "Single '}' encountered in format string")
  | InName name false => name_step name c
  | InName name true =>
      Goto (InName (snoc name c) (negb (Ascii.eqb c "]")))
  | SeenBang name => Goto (SeenConv name c)
  | SeenConv name conv =>
      if Ascii.eqb c "}" then Field name (Some conv) EmptyString
      else if Ascii.eqb c ":" then Goto (InSpec name (Some conv) EmptyString 0)
      else Fail (ValueError "expected ':' after conversion specifier")
  | InSpec name conv spec depth =>
      if Ascii.eqb c "{" then Goto (InSpec name conv (snoc spec c) (S depth))
      else if Ascii.eqb c "}" then
        match depth with
        | O => Field name conv spec
        | S depth' => Goto (InSpec name conv (snoc spec c) depth')
        end
      else Goto (InSpec name conv (snoc spec c) depth)
  end.

(** The template ends while the scanner is in state [st]. *)
Definition fmt_end (st : fmt_state) : result string :=
  match st with
  | InText => Ok EmptyString
  | SeenOpen => Raise (ValueError "Single '{' encountered in format string")
  | SeenClose => Raise (ValueError "Single '}' encountered in format string")
  | InName _ _ => Raise (ValueError "expected '}' before end of string")
  | SeenBang _ =>
      Raise (ValueError "end of string while looking for conversion specifier")
  | SeenConv _ _ | InSpec _ _ _ _ =>
      Raise (ValueError "unmatched '{' in format spec")
  end.

(** The part of a field name before the first [.] or [[], and the rest. *)
Fixpoint split_first (s : string) : string * string :=
  match s with
  | EmptyString => (EmptyString, EmptyString)
  | String c s' =>
      if Ascii.eqb c "." || Ascii.eqb c "[" then (EmptyString, s)
      else let (first, rest) := split_first s' in (String c first, rest)
  end.

(** An ASCII digit.  A field name written with the decimal digits of
    another script, which [str.format] also reads as an index, is not
    recognised here. *)
Definition is_digit (c : ascii) : bool :=
  Nat.leb 48 (nat_of_ascii c) && Nat.leb (nat_of_ascii c) 57.

Definition SSIZE_T_MAX : Z := 2 ^ 63 - 1.

(** The name read as a decimal index: [None] when it is empty or holds
    a character that is not a digit. *)
Fixpoint get_integer_from (acc : Z) (s : string) : result (option Z) :=
  match s with
  | EmptyString => Ok (Some acc)
  | String c s' =>
      if is_digit c then
        let digitval := Z.of_nat (nat_of_ascii c - 48) in
        if (acc >? (SSIZE_T_MAX - digitval) / 10)%Z
        then Raise (ValueError "Too many decimal digits in format string")
        else get_integer_from (acc * 10 + digitval) s'
      else Ok None
  end.

Definition get_integer (s : string) : result (option Z) :=
  match s with
  | EmptyString => Ok None
  | _ => get_integer_from 0 s
  end.

Definition index_error (i : Z) : exn :=
  IndexError ("Replacement index " ++ NilZero.string_of_int (Z.to_int i)
              ++ " out of range for positional args tuple").

(** The text written for the replacement field [{name!conv:spec}].  An
    empty or numeric name indexes the positional arguments, of which
    there are none; any other name is looked up among the keyword
    arguments, of which [entity] is the only one. *)
Definition field_text (entity : scalar) (name : string) (conv : option ascii)
    (spec : string) : result string :=
  let (first, rest) := split_first name in
  match get_integer first with
  | Raise e => Raise e
  | Ok (Some i) => Raise (index_error i)
  | Ok None =>
      match first with
      | EmptyString => Raise (index_error 0)
      | _ =>
          if String.eqb first "entity" then
            match rest, conv, spec with
            | EmptyString, None, EmptyString => Ok (scalar_str entity)
            | _, _, _ => format_field svc entity rest conv spec
            end
          else Raise (KeyError first)
      end
  end.

Definition prepend (c : string) (r : result string) : result string :=
  match r with
  | Ok s => Ok (c ++ s)
  | Raise e => Raise e
  end.

Fixpoint format_from (entity : scalar) (st : fmt_state) (s : string) : result string :=
  match s with
  | EmptyString => fmt_end st
  | String c s' =>
      match fmt_step st c with
      | Goto st' => format_from entity st' s'
      | Emit c' => prepend (String c' EmptyString) (format_from entity InText s')
      | Field name conv spec =>
          match field_text entity name conv spec with
          | Ok text => prepend text (format_from entity InText s')
          | Raise e => Raise e
          end
      | Fail e => Raise e
      end
  end.

(** [template.format(entity=entity)] *)
Definition str_format (template : string) (entity : scalar) : result string :=
  format_from entity InText template.

(** ** [AIWebSearchAgent.search_web] *)

(** [self.headers], set by [__init__] *)
Definition self_headers : headers :=
  [("User-Agent",
    "Mozilla/5.0 (Windows NT 10.0; Win64; x64) AppleWebKit/537.36 (KHTML, like Gecko) Chrome/91.0.4472.124 Safari/537.36")].

(** The tags and texts below a node, in document order. *)
Fixpoint descendants (n : node) : list node :=
  match n with
  | Text _ => []
  | Tag _ _ children => flat_map (fun c => c :: descendants c) children
  end.

Definition has_class (cls : string) (n : node) : bool :=
  match n with
  | Text _ => false
  | Tag _ classes _ => existsb (String.eqb cls) classes
  end.

(** [n.select('.cls')]: the matching descendants, in document order. *)
Definition select (cls : string) (n : node) : list node :=
  filter (has_class cls) (descendants n).

(** [n.select_one('.cls')]: the first match, or [None]. *)
Definition select_one (cls : string) (n : node) : option node :=
  hd_error (select cls n).

(** [n.get_text()]: the texts below [n], concatenated. *)
Fixpoint get_text (n : node) : string :=
  match n with
  | Text s => s
  | Tag _ _ children => String.concat EmptyString (map get_text children)
  end.

(** [xs[:n]]: a negative [n] counts from the end. *)
Definition slice_to {A} (n : Z) (xs : list A) : list A :=
  if (n <? 0)%Z
  then firstn (Z.to_nat (Z.max 0 (Z.of_nat (length xs) + n))) xs
  else firstn (Z.to_nat n) xs.

(** One turn of the loop over the result containers: the text appended
    to [results], if any.  A tag is true whatever it holds, so
    [title and snippet] asks that both were found. *)
Definition result_entry (result : node) : option string :=
  match select_one "result__title" result, select_one "result__snippet" result with
  | Some title, Some snippet =>
      Some ("Title: " ++ get_text title ++ nl ++ "Snippet: " ++ get_text snippet ++ nl)
  | _, _ => None
  end.

Fixpoint append_entries (containers : list node) (results : list string) : list string :=
  match containers with
  | [] => results
  | result :: rest =>
      match result_entry result with
      | Some entry => append_entries rest (results ++ [entry])%list
      | None => append_entries rest results
      end
  end.

(** The list [results] when the loop of [search_web] ends. *)
Definition search_results (soup : node) (num_results : Z) : list string :=
  append_entries (slice_to num_results (select "result__body" soup)) [].

Definition search_url (query : string) : string :=
  "https://html.duckduckgo.com/html/?q=" ++ query.

Definition search_web (query : string) (num_results : Z) : M string :=
  try_except
    (text <- http_get (search_url query) self_headers ;;
     soup <- lift (html_parser svc text) ;;
     ret (String.concat nl (search_results soup num_results)))
    (fun e => ret ("Search error: " ++ exn_str e)).

(** ** [AIWebSearchAgent.extract_info_with_llm] *)

Definition indent8 : string := "        ".
Definition indent12 : string := "            ".

Definition prompt_of (query search_results : string) : string :=
  nl ++
  indent8 ++ "### Context" ++ nl ++
  indent8 ++ "Query: " ++ query ++ nl ++
  indent8 ++ "Search Results: " ++ search_results ++ nl ++
  nl ++
  indent8 ++ "### Task" ++ nl ++
  indent8 ++ "Analyze the search results and extract relevant information that answers the query." ++ nl ++
  indent8 ++ "Provide a response in JSON format with the following structure:" ++ nl ++
  indent8 ++ "{" ++ nl ++
  indent12 ++ dq ++ "extracted_info" ++ dq ++ ": " ++ dq ++ "main findings or relevant information" ++ dq ++ "," ++ nl ++
  indent12 ++ dq ++ "key_points" ++ dq ++ ": [" ++ dq ++ "list" ++ dq ++ ", " ++ dq ++ "of" ++ dq ++ ", "
           ++ dq ++ "important" ++ dq ++ ", " ++ dq ++ "points" ++ dq ++ "]," ++ nl ++
  indent12 ++ dq ++ "source_quality" ++ dq ++ ": " ++ dq ++ "assessment of source reliability (high/medium/low)" ++ dq ++ "," ++ nl ++
  indent12 ++ dq ++ "confidence" ++ dq ++ ": " ++ dq ++ "confidence in findings (high/medium/low)" ++ dq ++ "," ++ nl ++
  indent12 ++ dq ++ "additional_notes" ++ dq ++ ": " ++ dq ++ "any caveats or important context" ++ dq ++ nl ++
  indent8 ++ "}" ++ nl ++
  nl ++
  indent8 ++ "The JSON must be valid and properly formatted." ++ nl ++
  indent8.

Definition completion_request (prompt : string) : chat_request :=
  {| model := "mixtral-8x7b-32768";
     messages :=
       [Message "system" "You are a precise data extraction assistant. Always provide responses in valid JSON format.";
        Message "user" prompt];
     temperature := 0;
     max_tokens := 1000 |}.

(** [completion.choices[0].message.content] *)
Definition first_content (choices : list (option string)) : result (option string) :=
  match choices with
  | [] => Raise (IndexError "list index out of range")
  | c :: _ => Ok c
  end.

(** [json.loads(content)]; [None] is not text. *)
Definition loads_content (c : option string) : result pyval :=
  match c with
  | None => Raise (TypeError "the JSON object must be str, bytes or bytearray, not NoneType")
  | Some text => json_loads svc text
  end.

(** The dictionary returned by the [except] branch. *)
Definition llm_error (e : exn) : pyval :=
  PDict [("error", PStr ("LLM processing error: " ++ exn_str e));
         ("extracted_info", PNone);
         ("key_points", PList []);
         ("source_quality", PStr "error");
         ("confidence", PStr "none");
         ("additional_notes", PStr "Failed to process with LLM")].

(** The body of the [try]: the completion call and the decoding. *)
Definition completion_step (prompt : string) : M pyval :=
  choices <- chat_completions_create (completion_request prompt) ;;
  c <- lift (first_content choices) ;;
  lift (loads_content c).

Definition extract_info_with_llm (query search_results : string) : M pyval :=
  let prompt := prompt_of query search_results in
  try_except (completion_step prompt) (fun e => ret (llm_error e)).

(** ** [AIWebSearchAgent.process_data] *)

(** A row as [data.iterrows()] yields it: its cells by column name.  The
    frame has the default integer index, as [pd.read_csv] gives it, so
    the progress computed from [idx] is a number; the calls that only
    draw the progress bar and the status text are left out.  The loop
    with the labels of the rows, these calls and the exceptions they
    may raise is [Orchestrator.process_data] below. *)
Definition row := list (string * scalar).

(** [row[query_col]] *)
Fixpoint row_get (r : row) (col : string) : result scalar :=
  match r with
  | [] => Raise (KeyError col)
  | (c, v) :: r' => if String.eqb col c then Ok v else row_get r' col
  end.

(** The [try] statement of the loop body: the record appended to
    [results]. *)
Definition row_try (entity : scalar) (search_query : string) : M dict :=
  search_results <- search_web search_query 3 ;;
  extracted_info <- extract_info_with_llm search_query search_results ;;
  timestamp <- time_strftime ;;
  ret [("entity", scalar_val entity);
       ("search_query", PStr search_query);
       ("analysis", extracted_info);
       ("timestamp", PStr timestamp)].

Definition row_except (entity : scalar) (e : exn) : M dict :=
  timestamp <- time_strftime ;;
  ret [("entity", scalar_val entity);
       ("error", PStr (exn_str e));
       ("timestamp", PStr timestamp)].

(** The loop body for one row: [results] with the row's record
    appended. *)
Definition process_row (query_col template : string) (r : row)
    (results : list dict) : M (list dict) :=
  entity <- lift (row_get r query_col) ;;
  search_query <- lift (str_format template entity) ;;
  record <- try_except (row_try entity search_query) (row_except entity) ;;
  time_sleep 2 ;;;
  ret (results ++ [record])%list.

Fixpoint process_rows (query_col template : string) (rows : list row)
    (results : list dict) : M (list dict) :=
  match rows with
  | [] => ret results
  | r :: rest =>
      results' <- process_row query_col template r results ;;
      process_rows query_col template rest results'
  end.

Definition process_data (data : list row) (query_col template : string) : M (list dict) :=
  process_rows query_col template data [].

End Agent.

(** ** [display_results]: the summary view *)

(** [type(v).__name__] *)
Definition type_name (v : pyval) : string :=
  match v with
  | PNone => "NoneType"
  | PBool _ => "bool"
  | PInt _ => "int"
  | PFloat _ => "float"
  | PStr _ => "str"
  | PList _ => "list"
  | PDict _ => "dict"
  end.

(** [r[k]] *)
Definition dict_item (k : string) (r : dict) : result pyval :=
  match dict_get k r with
  | Some v => Ok v
  | None => Raise (KeyError k)
  end.

(** [v.get(k, "N/A")]: only a [dict] has [get]. *)
Definition get_or_na (k : string) (v : pyval) : result pyval :=
  match v with
  | PDict d => Ok (dict_get_default k (PStr "N/A") d)
  | _ => Raise (AttributeError ("'" ++ type_name v ++ "' object has no attribute 'get'"))
  end.

Definition rbind {A B} (r : result A) (k : A -> result B) : result B :=
  match r with
  | Ok a => k a
  | Raise e => Raise e
  end.

(** The row appended to [summary_data] for a record that has an
    [analysis]. *)
Definition summary_row (r : dict) : result dict :=
  rbind (dict_item "entity" r) (fun entity =>
  rbind (dict_item "analysis" r) (fun analysis =>
  rbind (get_or_na "extracted_info" analysis) (fun findings =>
  rbind (get_or_na "confidence" analysis) (fun confidence =>
  rbind (get_or_na "source_quality" analysis) (fun quality =>
  Ok [("Entity", entity);
      ("Main Findings", findings);
      ("Confidence", confidence);
      ("Source Quality", quality)]))))).

(** The list [summary_data] when the loop of the first tab ends. *)
Fixpoint summary_loop (results : list dict) (summary_data : list dict) : result (list dict) :=
  match results with
  | [] => Ok summary_data
  | r :: rest =>
      if dict_has "analysis" r then
        rbind (summary_row r) (fun row => summary_loop rest (summary_data ++ [row])%list)
      else summary_loop rest summary_data
  end.

Definition summary_data (results : list dict) : result (list dict) :=
  summary_loop results [].

(** The table handed to [st.dataframe]: none when [summary_data] is
    empty. *)
Definition summary_view (results : list dict) : result (option (list dict)) :=
  rbind (summary_data results) (fun rows =>
  Ok (match rows with [] => None | _ => Some rows end)).

(** ** Closed forms

    What the three methods compute, written as functions of the call
    numbers at which the services are asked.  The lemmas [search_web_run],
    [extract_info_with_llm_run] and [process_rows_run] below show that
    the methods compute exactly these. *)

Section Closed.

Variable svc : Services.

(** The value of [search_web] when its request is the call number [k]. *)
Definition search_web_text (k : nat) (query : string) (num_results : Z) : string :=
  match requests_get svc k (search_url query) self_headers with
  | Raise e => "Search error: " ++ exn_str e
  | Ok text =>
      match html_parser svc text with
      | Raise e => "Search error: " ++ exn_str e
      | Ok soup => String.concat nl (search_results soup num_results)
      end
  end.

(** The outcome of the [try] body of [extract_info_with_llm] when its
    request is the call number [k]. *)
Definition completion_outcome (k : nat) (query search_results : string) : result pyval :=
  rbind (chat_create svc k (completion_request (prompt_of query search_results)))
    (fun choices => rbind (first_content choices) (loads_content svc)).

(** The value of [extract_info_with_llm]. *)
Definition analysis_of (k : nat) (query search_results : string) : pyval :=
  match completion_outcome k query search_results with
  | Ok v => v
  | Raise e => llm_error e
  end.

(** The record of a row whose search is the HTTP call [h], whose
    completion is the chat call [c] and whose timestamp is the clock
    read [t]. *)
Definition row_record (h c t : nat) (entity : scalar) (search_query : string) : dict :=
  [("entity", scalar_val entity);
   ("search_query", PStr search_query);
   ("analysis", analysis_of c search_query (search_web_text h search_query 3));
   ("timestamp", PStr (strftime svc t))].

(** The world after a row. *)
Definition row_world (search_query : string) (w : World) : World :=
  add_sleep 2
    (tick_clock
       (log_chat
          (completion_request
             (prompt_of search_query (search_web_text (http_calls w) search_query 3)))
          (log_http (search_url search_query) self_headers w))).

(** The entity of a row and the query rendered for it: the two
    statements of the loop body that stand before the [try]. *)
Definition row_query (query_col template : string) (r : row) : result (scalar * string) :=
  rbind (row_get r query_col) (fun entity =>
  rbind (str_format svc template entity) (fun search_query =>
  Ok (entity, search_query))).

(** The records of consecutive rows, the first at the call numbers
    [h], [c], [t]. *)
Fixpoint records_from (h c t : nat) (qs : list (scalar * string)) : list dict :=
  match qs with
  | [] => []
  | (entity, search_query) :: rest =>
      row_record h c t entity search_query :: records_from (S h) (S c) (S t) rest
  end.

(** The queries of all rows, or the first exception. *)
Fixpoint row_queries (query_col template : string) (rows : list row)
    : result (list (scalar * string)) :=
  match rows with
  | [] => Ok []
  | r :: rest =>
      rbind (row_query query_col template r) (fun q =>
      rbind (row_queries query_col template rest) (fun qs => Ok (q :: qs)))
  end.

(** The world after consecutive rows. *)
Fixpoint rows_world (qs : list (scalar * string)) (w : World) : World :=
  match qs with
  | [] => w
  | (_, search_query) :: rest => rows_world rest (row_world search_query w)
  end.

End Closed.


(** ** The words of the specification *)

(** URL escaping, as the specification asks of the query: letters,
    digits and [-], [_], [.], [~] stand for themselves, every other
    character is [%] and two hexadecimal digits. *)
Definition unreserved (c : ascii) : bool :=
  let n := nat_of_ascii c in
  (Nat.leb 65 n && Nat.leb n 90) || (Nat.leb 97 n && Nat.leb n 122)
  || (Nat.leb 48 n && Nat.leb n 57)
  || Ascii.eqb c "-" || Ascii.eqb c "_" || Ascii.eqb c "." || Ascii.eqb c "~".

Definition upper_hex (n : nat) : ascii :=
  if Nat.ltb n 10 then ascii_of_nat (48 + n) else ascii_of_nat (55 + n).

Fixpoint percent_encode (s : string) : string :=
  match s with
  | EmptyString => EmptyString
  | String c s' =>
      (if unreserved c then String c EmptyString
       else String "%" (String (upper_hex (nat_of_ascii c / 16))
                          (String (upper_hex (nat_of_ascii c mod 16)) EmptyString)))
      ++ percent_encode s'
  end.

(** The two shapes the specification gives an ExtractionResult. *)
Definition is_level (v : pyval) : bool :=
  match v with
  | PStr s => String.eqb s "high" || String.eqb s "medium" || String.eqb s "low"
  | _ => false
  end.

Definition is_str (v : pyval) : bool :=
  match v with PStr _ => true | _ => false end.

Definition is_str_or_none (v : pyval) : bool :=
  match v with PStr _ | PNone => true | _ => false end.

Definition is_str_list (v : pyval) : bool :=
  match v with PList l => forallb is_str l | _ => false end.

Definition field_is (p : pyval -> bool) (k : string) (d : dict) : bool :=
  match dict_get k d with Some v => p v | None => false end.

(** All five fields present and valid, and no [error]. *)
Definition populated_shape (v : pyval) : bool :=
  match v with
  | PDict d =>
      field_is is_str_or_none "extracted_info" d
      && field_is is_str_list "key_points" d
      && field_is is_level "source_quality" d
      && field_is is_level "confidence" d
      && field_is is_str "additional_notes" d
      && negb (dict_has "error" d)
  | _ => false
  end.

Definition pyval_is_none (v : pyval) : bool :=
  match v with PNone => true | _ => false end.

Definition pyval_is_empty_list (v : pyval) : bool :=
  match v with PList [] => true | _ => false end.

Definition pyval_is_str (s : string) (v : pyval) : bool :=
  match v with PStr s' => String.eqb s s' | _ => false end.

(** [error] set, [extracted_info] null, [key_points] empty,
    [source_quality] "error", [confidence] "none". *)
Definition sentinel_shape (v : pyval) : bool :=
  match v with
  | PDict d =>
      field_is is_str "error" d
      && field_is pyval_is_none "extracted_info" d
      && field_is pyval_is_empty_list "key_points" d
      && field_is (pyval_is_str "error") "source_quality" d
      && field_is (pyval_is_str "none") "confidence" d
  | _ => false
  end.

(** The summary row the specification describes for a record: the four
    columns, with "N/A" for what is absent. *)
Definition na : pyval := PStr "N/A".

Definition summary_row_of (entity : pyval) (analysis : dict) : dict :=
  [("Entity", entity);
   ("Main Findings", dict_get_default "extracted_info" na analysis);
   ("Confidence", dict_get_default "confidence" na analysis);
   ("Source Quality", dict_get_default "source_quality" na analysis)].

(** ** A worked scenario

    Three rows: Acme, Globex and Initech.  The search for Acme answers a
    page with three result containers, the third without a snippet; the
    search for Globex answers a page without results; every later
    search is refused.  The completion service answers a JSON object
    for Acme, plain prose for Globex and an empty object for Initech. *)

Module Scenario.

Definition acme_page : string := "<html>acme results</html>".
Definition empty_page : string := "<html></html>".

Definition acme_soup : node :=
  Tag "[document]" []
    [Tag "div" ["result"; "result__body"]
       [Tag "h2" ["result__title"] [Tag "a" [] [Text "Acme Corp"]];
        Tag "a" ["result__snippet"] [Text "Acme makes "; Tag "b" [] [Text "anvils"]; Text "."]];
     Tag "div" ["result__body"]
       [Tag "h2" ["result__title"] [Text "Acme news"];
        Tag "a" ["result__snippet"] [Text "Latest."]];
     Tag "div" ["result__body"]
       [Tag "h2" ["result__title"] [Text "No snippet here"]]].

Definition empty_soup : node := Tag "[document]" [] [].

Definition acme_json : string :=
  "{" ++ dq ++ "extracted_info" ++ dq ++ ": " ++ dq ++ "Acme makes anvils" ++ dq ++ ", "
      ++ dq ++ "key_points" ++ dq ++ ": [" ++ dq ++ "anvils" ++ dq ++ "], "
      ++ dq ++ "source_quality" ++ dq ++ ": " ++ dq ++ "high" ++ dq ++ ", "
      ++ dq ++ "confidence" ++ dq ++ ": " ++ dq ++ "medium" ++ dq ++ ", "
      ++ dq ++ "additional_notes" ++ dq ++ ": " ++ dq ++ "one source" ++ dq ++ "}".

Definition acme_analysis : pyval :=
  PDict [("extracted_info", PStr "Acme makes anvils");
         ("key_points", PList [PStr "anvils"]);
         ("source_quality", PStr "high");
         ("confidence", PStr "medium");
         ("additional_notes", PStr "one source")].

Definition JSONDecodeError : exn :=
  Exn "JSONDecodeError" "Expecting value: line 1 column 1 (char 0)".

Definition services : Services :=
  {| requests_get := fun n _ _ =>
       match n with
       | O => Ok acme_page
       | 1 => Ok empty_page
       | _ => Raise (Exn "ConnectionError" "connection refused")
       end;
     html_parser := fun text =>
       if String.eqb text acme_page then Ok acme_soup else Ok empty_soup;
     chat_create := fun n _ =>
       match n with
       | O => Ok [Some acme_json]
       | 1 => Ok [Some "I could not find anything."]
       | 2 => Ok [Some "{}"]
       | 3 => Raise (Exn "RateLimitError" "Error code: 429")
       | 4 => Ok []
       | _ => Ok [None]
       end;
     json_loads := fun text =>
       if String.eqb text acme_json then Ok acme_analysis
       else if String.eqb text "{}" then Ok (PDict [])
       else Raise JSONDecodeError;
     strftime := fun n =>
       match n with
       | O => "2024-05-01 10:00:00"
       | _ => "2024-05-01 10:00:03"
       end;
     format_field := fun _ _ _ _ => Raise (ValueError "Invalid format specifier") |}.

Definition data : list row :=
  [[("company", SStr "Acme"); ("employees", SInt 120)];
   [("company", SStr "Globex"); ("employees", SInt 75)];
   [("company", SStr "Initech"); ("employees", SInt 40)]].

Definition template : string := "Latest news about {entity}".

(** A world in which [h] searches and [c] completions were made. *)
Definition after_calls (h c : nat) : World :=
  {| http_calls := h; http_log := []; chat_calls := c; chat_log := [];
     clock_reads := 0; slept := 0 |}.

(** The run of the scenario from a fresh world. *)
Definition run : result (list dict) * World :=
  process_data services data "company" template world0.

Definition results : list dict :=
  match fst run with
  | Ok records => records
  | Raise _ => []
  end.

End Scenario.

(** ** Templates: helpers for stating what [str.format] does *)

Definition brace_free (s : string) : bool :=
  negb (contains_char "{" s) && negb (contains_char "}" s).

(** A text made literal for a template: every brace is doubled. *)
Fixpoint escape_braces (s : string) : string :=
  match s with
  | EmptyString => EmptyString
  | String c s' =>
      if Ascii.eqb c "{" || Ascii.eqb c "}"
      then String c (String c (escape_braces s'))
      else String c (escape_braces s')
  end.

Definition is_name_start (c : ascii) : bool :=
  let n := nat_of_ascii c in
  (Nat.leb 65 n && Nat.leb n 90) || (Nat.leb 97 n && Nat.leb n 122) || Nat.eqb n 95.

Definition is_name_char (c : ascii) : bool := is_name_start c || is_digit c.

Fixpoint all_chars (p : ascii -> bool) (s : string) : bool :=
  match s with
  | EmptyString => true
  | String c s' => p c && all_chars p s'
  end.

(** An identifier: a letter or underscore, then letters, digits and
    underscores. *)
Definition is_identifier (s : string) : bool :=
  match s with
  | EmptyString => false
  | String c s' => is_name_start c && all_chars is_name_char s'
  end.

(** ** Search results: helpers *)

(** The entries of a list of containers, in order: a container without
    a title or without a snippet gives none. *)
Definition entries_of (containers : list node) : list string :=
  flat_map (fun c => match result_entry c with
                     | Some entry => [entry]
                     | None => []
                     end) containers.

(** [s.startswith(p)] *)
Fixpoint starts_with (p s : string) : bool :=
  match p with
  | EmptyString => true
  | String a p' =>
      match s with
      | EmptyString => false
      | String b s' => Ascii.eqb a b && starts_with p' s'
      end
  end.

(** A page whose two first containers have no snippet and whose third
    is complete. *)
Module Pages.

Definition late_hit : node :=
  Tag "[document]" []
    [Tag "div" ["result__body"] [Tag "h2" ["result__title"] [Text "Ad"]];
     Tag "div" ["result__body"] [Tag "h2" ["result__title"] [Text "Another ad"]];
     Tag "div" ["result__body"]
       [Tag "h2" ["result__title"] [Text "Acme Corp"];
        Tag "a" ["result__snippet"] [Text "Anvils since 1949."]]].

End Pages.

(** ** Runs: helpers *)

(** The query a record was made for. *)
Definition record_query (record : dict) : string :=
  match dict_get "search_query" record with
  | Some (PStr q) => q
  | _ => EmptyString
  end.

(** The completion requests of consecutive rows, the first of which
    searches at the HTTP call number [h]. *)
Fixpoint requests_from (svc : Services) (h : nat) (qs : list (scalar * string))
    : list chat_request :=
  match qs with
  | [] => []
  | (_, q) :: rest =>
      completion_request (prompt_of q (search_web_text svc h q 3))
      :: requests_from svc (S h) rest
  end.

(** A record that the summary loop can handle: if it has an analysis,
    the analysis is a dictionary and the record has an entity. *)
Definition well_formed_record (r : dict) : Prop :=
  dict_has "analysis" r = true ->
  dict_has "entity" r = true /\ exists a, dict_get "analysis" r = Some (PDict a).

(** ** [display_results] in full, and the analysis block of [main] *)

(** [repr(v)] and [str(v)] *)
Fixpoint py_repr_val (v : pyval) : string :=
  match v with
  | PNone => "None"
  | PBool true => "True"
  | PBool false => "False"
  | PInt z => NilZero.string_of_int (Z.to_int z)
  | PFloat r => r
  | PStr s => py_repr s
  | PList l => "[" ++ String.concat ", " (map py_repr_val l) ++ "]"
  | PDict d =>
      "{" ++ String.concat ", "
               (map (fun kv => match kv with
                               | (k, v') => py_repr k ++ ": " ++ py_repr_val v'
                               end) d)
          ++ "}"
  end.

Definition py_str (v : pyval) : string :=
  match v with
  | PStr s => s
  | _ => py_repr_val v
  end.

(** What the script puts on the page.  A data frame belongs to the
    summary tab, an expander (with the record shown as JSON inside it)
    to the detail tab.  The Streamlit calls themselves are taken not to
    raise. *)
Inductive widget : Type :=
| Subheader (text : string)
| Tabs (labels : list string)
| Dataframe (rows : list dict)
| Expander (label : string) (json : dict)
| DownloadButton (label : string) (data : string) (file_name : string) (mime : string)
| ErrorBox (text : string).

Definition Screen := list widget.

Definition UI (A : Type) : Type := Screen -> result A * Screen.

Definition ui_ret {A} (a : A) : UI A := fun s => (Ok a, s).

Definition ui_bind {A B} (m : UI A) (k : A -> UI B) : UI B :=
  fun s => match m s with
           | (Ok a, s') => k a s'
           | (Raise e, s') => (Raise e, s')
           end.

Definition ui_lift {A} (r : result A) : UI A := fun s => (r, s).

Definition show (w : widget) : UI unit := fun s => (Ok tt, (s ++ [w])%list).

(** The loop of the detail tab. *)
Fixpoint detail_loop (results : list dict) : UI unit :=
  match results with
  | [] => ui_ret tt
  | r :: rest =>
      ui_bind (ui_lift (dict_item "entity" r)) (fun entity =>
      ui_bind (show (Expander ("Details for: " ++ py_str entity) r)) (fun _ =>
      detail_loop rest))
  end.

Definition display_results (results : list dict) : UI unit :=
  ui_bind (show (Subheader "Analysis Results")) (fun _ =>
  ui_bind (show (Tabs ["Summary View"; "Detailed View"])) (fun _ =>
  ui_bind (ui_lift (summary_data results)) (fun rows =>
  ui_bind (match rows with
           | [] => ui_ret tt
           | _ => show (Dataframe rows)
           end) (fun _ =>
  detail_loop results)))).

(** The two exports of [main]:
    [pd.json_normalize(results).to_csv(index=False)] and
    [json.dumps(results, indent=2)]. *)
Record Exporters : Type := {
  to_csv : list dict -> result string;
  json_dumps : list dict -> result string
}.

(** The bytes that stand before "Download Results" in the two button
    labels of the source file. *)
Definition download_icon : string :=
  String (ascii_of_nat 239) (String (ascii_of_nat 163) (String (ascii_of_nat 191)
  (String (ascii_of_nat 195) (String (ascii_of_nat 188) (String (ascii_of_nat 195)
  (String (ascii_of_nat 172) (String (ascii_of_nat 226) (String (ascii_of_nat 128)
  (String (ascii_of_nat 162) EmptyString))))))))).

(** What follows [process_data] inside the [try] of [main]. *)
Definition show_and_export (exp : Exporters) (results : list dict) : UI unit :=
  ui_bind (display_results results) (fun _ =>
  ui_bind (ui_lift (to_csv exp results)) (fun csv =>
  ui_bind (show (DownloadButton (download_icon ++ " Download Results (CSV)") csv
                   "ai_research_results.csv" "text/csv")) (fun _ =>
  ui_bind (ui_lift (json_dumps exp results)) (fun json =>
  show (DownloadButton (download_icon ++ " Download Results (JSON)") json
          "ai_research_results.json" "application/json"))))).

(** The [try] statement of [main], run when the button is pressed, for
    the uploaded frame [data], the chosen column and the template: the
    world and the page it leaves.  The spinner shown while the block
    runs is left out, and so are the progress bar and the status text
    of [process_data], which are emptied when [process_data] returns
    and stay on the page when it raises. *)
Definition main_analysis (svc : Services) (exp : Exporters) (data : list row)
    (query_column search_template : string) (w : World) (s : Screen) : World * Screen :=
  match process_data svc data query_column search_template w with
  | (Raise e, w') => (w', (s ++ [ErrorBox ("An error occurred: " ++ exn_str e)])%list)
  | (Ok results, w') =>
      match show_and_export exp results s with
      | (Ok _, s') => (w', s')
      | (Raise e, s') => (w', (s' ++ [ErrorBox ("An error occurred: " ++ exn_str e)])%list)
      end
  end.

(** The expander of a record. *)
Definition detail_of (r : dict) : widget :=
  Expander ("Details for: "
            ++ match dict_get "entity" r with
               | Some entity => py_str entity
               | None => EmptyString
               end) r.

(** The page of [display_results] for a summary [rows] and records
    [results]. *)
Definition results_page (rows : list dict) (results : list dict) : list widget :=
  ([Subheader "Analysis Results"; Tabs ["Summary View"; "Detailed View"]]
   ++ match rows with
      | [] => []
      | _ => [Dataframe rows]
      end
   ++ map detail_of results)%list.

(** The two download buttons. *)
Definition csv_button (csv : string) : widget :=
  DownloadButton (download_icon ++ " Download Results (CSV)") csv
    "ai_research_results.csv" "text/csv".

Definition json_button (json : string) : widget :=
  DownloadButton (download_icon ++ " Download Results (JSON)") json
    "ai_research_results.json" "application/json".

Module Exports.

(** Exporters that answer fixed texts. *)
Definition fixed : Exporters :=
  {| to_csv := fun _ => Ok "entity,search_query";
     json_dumps := fun _ => Ok "[]" |}.

(** Exporters whose JSON export refuses the records. *)
Definition no_json : Exporters :=
  {| to_csv := fun _ => Ok "entity,search_query";
     json_dumps := fun _ =>
       Raise (TypeError "Object of type int64 is not JSON serializable") |}.

End Exports.

(** Services whose completion always answers a JSON list. *)
Module ListAnswer.

Definition services : Services :=
  {| requests_get := requests_get Scenario.services;
     html_parser := html_parser Scenario.services;
     chat_create := fun _ _ => Ok [Some "[]"];
     json_loads := fun text =>
       if String.eqb text "[]" then Ok (PList []) else json_loads Scenario.services text;
     strftime := strftime Scenario.services;
     format_field := format_field Scenario.services |}.

Definition data : list row := [[("company", SStr "Acme")]].

Definition run : result (list dict) * World :=
  process_data services data "company" Scenario.template world0.

Definition record : dict :=
  [("entity", PStr "Acme");
   ("search_query", PStr "Latest news about Acme");
   ("analysis", PList []);
   ("timestamp", PStr "2024-05-01 10:00:00")].

End ListAnswer.

(** ** [process_data] in full: any index, the page, the methods of [self]

    The loop of [process_data] once more, with what the definitions
    above leave implicit: the label [idx] of each row, the calls that
    draw the progress bar and the status text, and the two methods
    called through [self], which a subclass or a test double may
    replace by methods that raise.  [process_data_default] below shows that, for a frame with the default index and the
    agent's own methods, this loop returns what [process_data] above
    returns. *)

Module Orchestrator.

(** An index label of the frame: an integer, a text, or a value of
    another type, carried by its [repr]. *)
Inductive label : Type :=
| LInt (z : Z)
| LStr (s : string)
| LOther (repr : string).

(** What [data.iterrows()] yields: each row with its label. *)
Definition frame := list (label * row).

(** The frame that [pd.read_csv] gives for these rows: the labels are
    the positions, counted from [start]. *)
Fixpoint with_index_from (start : nat) (rows : list row) : frame :=
  match rows with
  | [] => []
  | r :: rest => (LInt (Z.of_nat start), r) :: with_index_from (S start) rest
  end.

Definition with_default_index (rows : list row) : frame := with_index_from 0 rows.

(** The Streamlit calls of [process_data], as they are written:
    [st.columns([3, 1])], [col1.progress(0)], [col2.empty()],
    [progress_bar.progress((idx + 1) / total_rows)],
    [status_text.text(f"Processing {idx + 1}/{total_rows}")],
    [progress_bar.empty()] and [status_text.empty()]. *)
Inductive page_call : Type :=
| Columns (spec : list Z)
| BarCreate (value : Z)
| StatusCreate
| BarProgress (idx : label) (total_rows : nat)
| StatusText (idx : label) (total_rows : nat)
| BarEmpty
| StatusEmpty.

(** The world, and the calls made on the page so far. *)
Record Session : Type := { world : World; page : list page_call }.

Definition P (A : Type) : Type := Session -> result A * Session.

Definition pret {A} (a : A) : P A := fun s => (Ok a, s).

Definition pbind {A B} (m : P A) (k : A -> P B) : P B :=
  fun s => match m s with
           | (Ok a, s') => k a s'
           | (Raise e, s') => (Raise e, s')
           end.

Definition plift {A} (r : result A) : P A := fun s => (r, s).

(** A computation on the world, run in the session. *)
Definition in_world {A} (m : M A) : P A :=
  fun s => match m (world s) with
           | (r, w') => (r, {| world := w'; page := page s |})
           end.

Definition draw (c : page_call) : P unit :=
  fun s => (Ok tt, {| world := world s; page := (page s ++ [c])%list |}).

(** The two methods that [process_data] calls on [self]. *)
Record Agent : Type := {
  self_search_web : string -> Z -> M string;
  self_extract_info_with_llm : string -> string -> M pyval
}.

(** The agent of the source file. *)
Definition agent_of (svc : Services) : Agent :=
  {| self_search_web := search_web svc;
     self_extract_info_with_llm := extract_info_with_llm svc |}.

Section Loop.

Variable svc : Services.
Variable self : Agent.

(** The exception, if any, that lines 103 and 104 raise for the row
    labelled [idx] of a frame of [total_rows] rows: [idx + 1] for a
    label that does not add to a number, or the progress bar for a
    value it refuses. *)
Variable progress_error : label -> nat -> option exn.

(** Lines 103 to 105. *)
Definition update_progress (idx : label) (total_rows : nat) : P unit :=
  match progress_error idx total_rows with
  | Some e => plift (Raise e)
  | None =>
      pbind (draw (BarProgress idx total_rows)) (fun _ =>
      draw (StatusText idx total_rows))
  end.

(** The [try] body, with the methods of [self]. *)
Definition row_try (entity : scalar) (search_query : string) : M dict :=
  search_results <- self_search_web self search_query 3 ;;
  extracted_info <- self_extract_info_with_llm self search_query search_results ;;
  timestamp <- time_strftime svc ;;
  ret [("entity", scalar_val entity);
       ("search_query", PStr search_query);
       ("analysis", extracted_info);
       ("timestamp", PStr timestamp)].

(** The loop body, lines 99 to 130. *)
Definition process_row (total_rows : nat) (query_col template : string)
    (idx : label) (r : row) (results : list dict) : P (list dict) :=
  pbind (plift (row_get r query_col)) (fun entity =>
  pbind (plift (str_format svc template entity)) (fun search_query =>
  pbind (update_progress idx total_rows) (fun _ =>
  pbind (in_world (try_except (row_try entity search_query) (row_except svc entity)))
    (fun record =>
  pbind (in_world (time_sleep 2)) (fun _ =>
  pret (results ++ [record])%list))))).

Fixpoint process_rows (total_rows : nat) (query_col template : string)
    (rows : frame) (results : list dict) : P (list dict) :=
  match rows with
  | [] => pret results
  | (idx, r) :: rest =>
      pbind (process_row total_rows query_col template idx r results) (fun results' =>
      process_rows total_rows query_col template rest results')
  end.

(** Lines 90 to 134. *)
Definition process_data (data : frame) (query_col template : string) : P (list dict) :=
  let total_rows := length data in
  pbind (draw (Columns [3; 1]%Z)) (fun _ =>
  pbind (draw (BarCreate 0)) (fun _ =>
  pbind (draw StatusCreate) (fun _ =>
  pbind (process_rows total_rows query_col template data []) (fun results =>
  pbind (draw BarEmpty) (fun _ =>
  pbind (draw StatusEmpty) (fun _ =>
  pret results)))))).

End Loop.

(** The record appended by the [except] branch when the [try] body
    raised [e] and left the clock at its read number [t]. *)
Definition error_record (svc : Services) (entity : scalar) (e : exn) (t : nat) : dict :=
  [("entity", scalar_val entity);
   ("error", PStr (exn_str e));
   ("timestamp", PStr (strftime svc t))].

(** A progress bar that takes every update. *)
Definition no_progress_error : label -> nat -> option exn := fun _ _ => None.

(** A progress bar as for labels that are texts: [idx + 1] raises. *)
Definition text_labels_error : label -> nat -> option exn :=
  fun idx _ =>
    match idx with
    | LStr _ =>
        Some (TypeError ("can only concatenate str (not " ++ dq ++ "int" ++ dq ++ ") to str"))
    | _ => None
    end.

(** An agent whose search raises for the queries that mention Globex,
    and is the search of the source file for the others. *)
Definition flaky_agent (svc : Services) : Agent :=
  {| self_search_web := fun query num_results =>
       if String.eqb query "Latest news about Globex"
       then raise (Exn "ConnectionError" "connection refused")
       else search_web svc query num_results;
     self_extract_info_with_llm := extract_info_with_llm svc |}.

Definition session0 : Session := {| world := world0; page := [] |}.

(** What the loop leaves for a row: a record with the row's entity and
    a timestamp, and either an analysis or an error. *)
Definition row_outcome (query_col : string) (ir : label * row) (record : dict) : Prop :=
  exists entity,
    row_get (snd ir) query_col = Ok entity
    /\ dict_get "entity" record = Some (scalar_val entity)
    /\ dict_has "timestamp" record = true
    /\ ((dict_has "analysis" record = true /\ dict_has "error" record = false)
        \/ (dict_has "error" record = true /\ dict_has "analysis" record = false)).

End Orchestrator.

(** Services that know the format specification [d]: a decimal number
    for an integer, [ValueError] for a text. *)
Module Formats.

Definition services : Services :=
  {| requests_get := requests_get Scenario.services;
     html_parser := html_parser Scenario.services;
     chat_create := chat_create Scenario.services;
     json_loads := json_loads Scenario.services;
     strftime := strftime Scenario.services;
     format_field := fun entity rest conv spec =>
       match entity, rest, conv, spec with
       | SInt z, EmptyString, None, "d" => Ok (NilZero.string_of_int (Z.to_int z))
       | SStr _, EmptyString, None, "d" =>
           Raise (ValueError "Unknown format code 'd' for object of type 'str'")
       | _, _, _, _ => format_field Scenario.services entity rest conv spec
       end |}.

Definition template : string := "Companies with {entity:d} employees".

(** A frame whose second cell is a text. *)
Definition data : Orchestrator.frame :=
  [(Orchestrator.LInt 0, [("employees", SInt 120)]);
   (Orchestrator.LInt 1, [("employees", SStr "unknown")]);
   (Orchestrator.LInt 2, [("employees", SInt 40)])].

End Formats.

(** The calls that the loop draws for the rows it has gone through. *)
Definition progress_calls (total_rows : nat) (rows : Orchestrator.frame)
    : list Orchestrator.page_call :=
  flat_map (fun ir => [Orchestrator.BarProgress (fst ir) total_rows;
                       Orchestrator.StatusText (fst ir) total_rows]) rows.

(** * Properties *)

(** ** Running the three methods *)

Section Runs.

Variable svc : Services.

Lemma search_web_run query num_results w :
  search_web svc query num_results w
  = (Ok (search_web_text svc (http_calls w) query num_results),
     log_http (search_url query) self_headers w).
Proof.
  unfold search_web, search_web_text, try_except, bind, http_get, lift, ret.
  destruct (requests_get svc (http_calls w) (search_url query) self_headers)
    as [text | e]; [ | reflexivity ].
  destruct (html_parser svc text); reflexivity.
Qed.

Lemma completion_step_run prompt w :
  completion_step svc prompt w
  = (rbind (chat_create svc (chat_calls w) (completion_request prompt))
       (fun choices => rbind (first_content choices) (loads_content svc)),
     log_chat (completion_request prompt) w).
Proof.
  unfold completion_step, bind, chat_completions_create, lift.
  destruct (chat_create svc (chat_calls w) (completion_request prompt))
    as [choices | e]; simpl; [ | reflexivity ].
  destruct (first_content choices); reflexivity.
Qed.

Lemma extract_info_with_llm_run query search_results w :
  extract_info_with_llm svc query search_results w
  = (Ok (analysis_of svc (chat_calls w) query search_results),
     log_chat (completion_request (prompt_of query search_results)) w).
Proof.
  unfold extract_info_with_llm, try_except, analysis_of, completion_outcome.
  rewrite completion_step_run.
  destruct (rbind _ _); reflexivity.
Qed.

Lemma row_try_run entity search_query w :
  row_try svc entity search_query w
  = (Ok (row_record svc (http_calls w) (chat_calls w) (clock_reads w)
           entity search_query),
     tick_clock
       (log_chat
          (completion_request
             (prompt_of search_query
                (search_web_text svc (http_calls w) search_query 3)))
          (log_http (search_url search_query) self_headers w))).
Proof.
  unfold row_try, bind.
  rewrite search_web_run, extract_info_with_llm_run.
  reflexivity.
Qed.

Lemma process_row_run query_col template r results w entity search_query :
  row_query svc query_col template r = Ok (entity, search_query) ->
  process_row svc query_col template r results w
  = (Ok (results ++ [row_record svc (http_calls w) (chat_calls w) (clock_reads w)
                       entity search_query])%list,
     row_world svc search_query w).
Proof.
  unfold row_query, process_row, bind, lift, try_except, rbind.
  destruct (row_get r query_col) as [entity' | e]; [ | discriminate ].
  destruct (str_format svc template entity') as [q | e]; [ | discriminate ].
  intros H; injection H as -> ->.
  rewrite row_try_run. reflexivity.
Qed.

Lemma process_row_raise query_col template r results w e :
  row_query svc query_col template r = Raise e ->
  process_row svc query_col template r results w = (Raise e, w).
Proof.
  unfold row_query, process_row, bind, lift, rbind.
  destruct (row_get r query_col) as [entity | e'].
  - destruct (str_format svc template entity) as [q | e']; [ discriminate | ].
    intros H; injection H as ->. reflexivity.
  - intros H; injection H as ->. reflexivity.
Qed.

Lemma row_world_counters search_query w :
  http_calls (row_world svc search_query w) = S (http_calls w)
  /\ chat_calls (row_world svc search_query w) = S (chat_calls w)
  /\ clock_reads (row_world svc search_query w) = S (clock_reads w).
Proof. repeat split. Qed.

Lemma process_rows_run query_col template rows :
  forall results w qs,
  row_queries svc query_col template rows = Ok qs ->
  process_rows svc query_col template rows results w
  = (Ok (results
         ++ records_from svc (http_calls w) (chat_calls w) (clock_reads w) qs)%list,
     rows_world svc qs w).
Proof.
  induction rows as [ | r rows IH]; intros results w qs Hq; simpl in *.
  - injection Hq as <-. simpl. rewrite app_nil_r. reflexivity.
  - unfold rbind in Hq.
    destruct (row_query svc query_col template r) as [[entity q] | e] eqn:Hr;
      [ | discriminate ].
    destruct (row_queries svc query_col template rows) as [qs' | e] eqn:Hrs;
      [ | discriminate ].
    injection Hq as <-.
    unfold bind. rewrite (process_row_run _ _ _ _ _ _ _ Hr).
    rewrite (IH _ _ qs' eq_refl). simpl.
    rewrite <- app_assoc. reflexivity.
Qed.

Lemma process_rows_raise query_col template rows :
  forall results w e,
  row_queries svc query_col template rows = Raise e ->
  fst (process_rows svc query_col template rows results w) = Raise e.
Proof.
  induction rows as [ | r rows IH]; intros results w e Hq; simpl in *.
  - discriminate.
  - unfold rbind in Hq. unfold bind.
    destruct (row_query svc query_col template r) as [[entity q] | e'] eqn:Hr.
    + rewrite (process_row_run _ _ _ _ _ _ _ Hr).
      destruct (row_queries svc query_col template rows) as [qs' | e'];
        [ discriminate | ].
      injection Hq as ->. apply IH. reflexivity.
    + injection Hq as ->. rewrite (process_row_raise _ _ _ _ _ _ Hr). reflexivity.
Qed.

Lemma row_queries_raise query_col template rows e :
  row_queries svc query_col template rows = Raise e ->
  exists pre r post,
    rows = (pre ++ r :: post)%list
    /\ Forall (fun r' => is_ok (row_query svc query_col template r') = true) pre
    /\ row_query svc query_col template r = Raise e.
Proof.
  induction rows as [ | r rows IH]; simpl; [ discriminate | ].
  unfold rbind.
  destruct (row_query svc query_col template r) as [q | e'] eqn:Hr.
  - destruct (row_queries svc query_col template rows) as [qs | e'];
      [ discriminate | ].
    intros H; injection H as ->.
    destruct (IH eq_refl) as (pre & r' & post & -> & Hpre & Hr').
    exists (r :: pre), r', post. repeat split; [ | assumption ].
    constructor; [ rewrite Hr; reflexivity | assumption ].
  - intros H; injection H as ->.
    exists [], r, rows. repeat split; [ constructor | assumption ].
Qed.

Lemma row_queries_ok query_col template rows qs :
  row_queries svc query_col template rows = Ok qs ->
  Forall2 (fun r q => row_query svc query_col template r = Ok q) rows qs.
Proof.
  revert qs. induction rows as [ | r rows IH]; simpl; intros qs H.
  - injection H as <-. constructor.
  - unfold rbind in H.
    destruct (row_query svc query_col template r) as [q | e] eqn:Hr;
      [ | discriminate ].
    destruct (row_queries svc query_col template rows) as [qs' | e];
      [ | discriminate ].
    injection H as <-. constructor; [ exact Hr | apply IH; reflexivity ].
Qed.

Lemma row_queries_all_ok query_col template rows :
  Forall (fun r => is_ok (row_query svc query_col template r) = true) rows ->
  exists qs, row_queries svc query_col template rows = Ok qs.
Proof.
  induction 1 as [ | r rows Hr _ IH]; simpl.
  - eexists; reflexivity.
  - destruct (row_query svc query_col template r); [ | discriminate ].
    destruct IH as [qs ->]. eexists; reflexivity.
Qed.

Lemma records_from_length h c t qs :
  length (records_from svc h c t qs) = length qs.
Proof.
  revert h c t. induction qs as [ | [entity q] qs IH]; intros; simpl;
    [ | rewrite IH ]; reflexivity.
Qed.

Lemma records_from_nth qs :
  forall h c t i entity q,
  nth_error qs i = Some (entity, q) ->
  nth_error (records_from svc h c t qs) i
  = Some (row_record svc (h + i) (c + i) (t + i) entity q).
Proof.
  induction qs as [ | [entity' q'] qs IH]; intros h c t [ | i] entity q H;
    simpl in *; try discriminate.
  - injection H as -> ->. rewrite !Nat.add_0_r. reflexivity.
  - rewrite (IH _ _ _ _ _ _ H). rewrite !Nat.add_succ_r. reflexivity.
Qed.

End Runs.

(** ** Auxiliary facts *)

Lemma row_query_inv svc query_col template r entity search_query :
  row_query svc query_col template r = Ok (entity, search_query) ->
  row_get r query_col = Ok entity
  /\ str_format svc template entity = Ok search_query.
Proof.
  unfold row_query, rbind.
  destruct (row_get r query_col) as [entity' | e]; [ | discriminate ].
  destruct (str_format svc template entity') as [q | e] eqn:Hq; [ | discriminate ].
  intros H; injection H as -> ->. split; [ reflexivity | assumption ].
Qed.

Lemma records_from_Forall2 svc (P : row -> scalar * string -> Prop)
    (Q : row -> dict -> Prop) rows qs :
  (forall r entity q h c t,
      P r (entity, q) -> Q r (row_record svc h c t entity q)) ->
  Forall2 P rows qs ->
  forall h c t, Forall2 Q rows (records_from svc h c t qs).
Proof.
  intros HPQ H. induction H as [ | r [entity q] rows qs Hr _ IH]; intros h c t;
    simpl; constructor; [ apply HPQ; assumption | apply IH ].
Qed.

Lemma records_from_Forall svc (Q : dict -> Prop) qs :
  (forall entity q h c t, Q (row_record svc h c t entity q)) ->
  forall h c t, Forall Q (records_from svc h c t qs).
Proof.
  intros HQ. induction qs as [ | [entity q] qs IH]; intros h c t; simpl;
    constructor; [ apply HQ | apply IH ].
Qed.


Lemma brace_free_format svc entity template :
  contains_char "{" template = false ->
  contains_char "}" template = false ->
  format_from svc entity InText template = Ok template.
Proof.
  induction template as [ | c s IH]; intros Ho Hc.
  - reflexivity.
  - change (Ascii.eqb "{" c || contains_char "{" s = false) in Ho.
    change (Ascii.eqb "}" c || contains_char "}" s = false) in Hc.
    apply orb_false_iff in Ho as [Ho1 Ho2].
    apply orb_false_iff in Hc as [Hc1 Hc2].
    rewrite Ascii.eqb_sym in Ho1. rewrite Ascii.eqb_sym in Hc1.
    cbn [format_from fmt_step]. rewrite Ho1, Hc1, (IH Ho2 Hc2). reflexivity.
Qed.





Lemma summary_loop_run results :
  forall acc,
  Forall (fun r => dict_has "analysis" r = true ->
                   dict_has "entity" r = true
                   /\ exists a, dict_get "analysis" r = Some (PDict a)) results ->
  exists rows,
    summary_loop results acc = Ok (acc ++ rows)%list
    /\ Forall2 (fun r row =>
         exists entity a,
           dict_get "entity" r = Some entity
           /\ dict_get "analysis" r = Some (PDict a)
           /\ row = summary_row_of entity a)
         (filter (dict_has "analysis") results) rows.
Proof.
  induction results as [ | r results IH]; intros acc H; simpl.
  - exists []. rewrite app_nil_r. split; [ reflexivity | constructor ].
  - inversion H as [ | r' rs Hr Hrest]; subst.
    destruct (dict_has "analysis" r) eqn:Ha.
    + destruct (Hr eq_refl) as (He & a & Hda).
      unfold dict_has in He.
      destruct (dict_get "entity" r) as [entity | ] eqn:Hde; [ | discriminate ].
      unfold summary_row, dict_item. rewrite Hde, Hda. simpl.
      destruct (IH (acc ++ [summary_row_of entity a])%list Hrest) as (rows & Hrun & Hall).
      exists (summary_row_of entity a :: rows). split.
      * unfold summary_row_of, na in *. rewrite Hrun, <- app_assoc. reflexivity.
      * constructor; [ | assumption ]. exists entity, a. auto.
    + apply IH; assumption.
Qed.

(** ** The orchestrator *)

(** The run of the scenario: one record per row.  Acme has the analysis
    the service gave; Globex, whose completion was prose, has the error
    sentinel as its analysis; Initech, whose search was refused, has the
    empty object the service answered to "Search error: ...". *)
Example scenario_run :
  fst Scenario.run
  = Ok [[("entity", PStr "Acme");
         ("search_query", PStr "Latest news about Acme");
         ("analysis", Scenario.acme_analysis);
         ("timestamp", PStr "2024-05-01 10:00:00")];
        [("entity", PStr "Globex");
         ("search_query", PStr "Latest news about Globex");
         ("analysis",
          llm_error (Exn "JSONDecodeError" "Expecting value: line 1 column 1 (char 0)"));
         ("timestamp", PStr "2024-05-01 10:00:03")];
        [("entity", PStr "Initech");
         ("search_query", PStr "Latest news about Initech");
         ("analysis", PDict []);
         ("timestamp", PStr "2024-05-01 10:00:03")]].
Proof. vm_compute. reflexivity. Qed.

Example scenario_initech_prompt :
  search_web_text Scenario.services 2 "Latest news about Initech" 3
  = "Search error: connection refused".
Proof. reflexivity. Qed.

(** C1.  Whatever the rows, the template and the services, [process_data]
    either returns one record per row, in the order of the rows, the
    record of a row carrying that row's entity and the query rendered
    for it; or it ends with the exception that reading the entity or
    rendering the query of one of the rows raised, and returns
    nothing. *)
Theorem process_data_length_and_order svc data query_col template w :
  (exists results w',
      process_data svc data query_col template w = (Ok results, w')
      /\ length results = length data
      /\ Forall2 (fun r record =>
           exists entity search_query,
             row_get r query_col = Ok entity
             /\ str_format svc template entity = Ok search_query
             /\ dict_get "entity" record = Some (scalar_val entity)
             /\ dict_get "search_query" record = Some (PStr search_query))
           data results)
  \/ (exists e r,
        In r data
        /\ row_query svc query_col template r = Raise e
        /\ fst (process_data svc data query_col template w) = Raise e).
Proof.
  unfold process_data.
  destruct (row_queries svc query_col template data) as [qs | e] eqn:Hq.
  - left. rewrite (process_rows_run svc _ _ _ _ _ _ Hq). simpl.
    pose proof (row_queries_ok svc _ _ _ _ Hq) as Hall.
    eexists; eexists. split; [ reflexivity | ]. split.
    + rewrite records_from_length. symmetry. exact (Forall2_length Hall).
    + apply records_from_Forall2 with (2 := Hall).
      intros r entity q h c t Hr.
      apply row_query_inv in Hr as [He Hs].
      exists entity, q. repeat split; assumption.
  - right. destruct (row_queries_raise svc _ _ _ _ Hq)
      as (pre & r & post & -> & _ & Hr).
    exists e, r. split; [ apply in_elt | ].
    split; [ assumption | ].
    apply process_rows_raise. assumption.
Qed.

(** C10.  The body of the per-row [try] never raises, because neither
    [search_web] nor [extract_info_with_llm] does: the [except] branch
    of [process_data] is never entered, and every record of a returned
    result list has exactly the keys entity, search_query, analysis and
    timestamp. *)
Theorem process_data_records_have_analysis svc :
  (forall query num_results w,
      exists text w', search_web svc query num_results w = (Ok text, w'))
  /\ (forall query search_results w,
      exists v w', extract_info_with_llm svc query search_results w = (Ok v, w'))
  /\ (forall entity search_query w,
      exists record w', row_try svc entity search_query w = (Ok record, w'))
  /\ (forall data query_col template w results w',
      process_data svc data query_col template w = (Ok results, w') ->
      Forall (fun record =>
                dict_keys record = ["entity"; "search_query"; "analysis"; "timestamp"])
             results).
Proof.
  split; [ | split; [ | split ] ].
  - intros. rewrite search_web_run. eexists; eexists; reflexivity.
  - intros. rewrite extract_info_with_llm_run. eexists; eexists; reflexivity.
  - intros. rewrite row_try_run. eexists; eexists; reflexivity.
  - intros data query_col template w results w' Hrun. unfold process_data in Hrun.
    destruct (row_queries svc query_col template data) as [qs | e] eqn:Hq.
    + rewrite (process_rows_run svc _ _ _ _ _ _ Hq) in Hrun.
      injection Hrun as <- _. simpl.
      apply records_from_Forall. reflexivity.
    + pose proof (process_rows_raise svc _ _ _ [] w _ Hq) as Hr.
      rewrite Hrun in Hr. discriminate.
Qed.

Lemma process_data_records_have_analysis_witness :
  Scenario.run = (Ok Scenario.results, snd Scenario.run)
  /\ Forall (fun record =>
               dict_keys record = ["entity"; "search_query"; "analysis"; "timestamp"])
            Scenario.results.
Proof.
  assert (H : Scenario.run = (Ok Scenario.results, snd Scenario.run))
    by (vm_compute; reflexivity).
  split; [ exact H | ].
  exact (proj2 (proj2 (proj2
           (process_data_records_have_analysis Scenario.services)))
           _ _ _ _ _ _ H).
Defined.

(** ** The loop in full *)

Section OrchestratorRuns.

Import Orchestrator.

Variable svc : Services.
Variable self : Agent.
Variable progress_error : label -> nat -> option exn.

Lemma update_progress_ok idx total_rows s :
  progress_error idx total_rows = None ->
  update_progress progress_error idx total_rows s
  = (Ok tt,
     {| world := world s;
        page := (page s ++ [BarProgress idx total_rows; StatusText idx total_rows])%list |}).
Proof.
  intros H. unfold update_progress, pbind, draw. rewrite H. cbn [world page].
  rewrite <- app_assoc. reflexivity.
Qed.

(** One turn of the loop whose statements before the [try] succeed:
    the [try] statement decides the record, and the turn ends
    normally either way. *)
Lemma full_process_row_run total_rows query_col template idx r results s entity search_query :
  row_get r query_col = Ok entity ->
  str_format svc template entity = Ok search_query ->
  progress_error idx total_rows = None ->
  process_row svc self progress_error total_rows query_col template idx r results s
  = match row_try svc self entity search_query (world s) with
    | (Ok record, w1) =>
        (Ok (results ++ [record])%list,
         {| world := add_sleep 2 w1;
            page := (page s ++ [BarProgress idx total_rows; StatusText idx total_rows])%list |})
    | (Raise e, w1) =>
        (Ok (results ++ [error_record svc entity e (clock_reads w1)])%list,
         {| world := add_sleep 2 (tick_clock w1);
            page := (page s ++ [BarProgress idx total_rows; StatusText idx total_rows])%list |})
    end.
Proof.
  intros Hg Hf Hp. unfold process_row.
  unfold pbind at 1. unfold plift at 1. rewrite Hg.
  unfold pbind at 1. unfold plift at 1. rewrite Hf.
  unfold pbind at 1. rewrite (update_progress_ok _ _ _ Hp).
  unfold pbind, in_world, try_except, pret. cbn [world page].
  destruct (row_try svc self entity search_query (world s)) as [[record | e] w1];
    reflexivity.
Qed.

Lemma full_process_row_raise total_rows query_col template idx r results s e :
  row_query svc query_col template r = Raise e
  \/ (is_ok (row_query svc query_col template r) = true
      /\ progress_error idx total_rows = Some e) ->
  process_row svc self progress_error total_rows query_col template idx r results s
  = (Raise e, s).
Proof.
  unfold row_query, rbind, process_row.
  unfold pbind at 1. unfold plift at 1.
  destruct (row_get r query_col) as [entity | e1].
  - unfold pbind at 1. unfold plift at 1.
    destruct (str_format svc template entity) as [q | e2].
    + intros [H | [_ Hp]]; [ discriminate | ].
      unfold pbind at 1. unfold update_progress. rewrite Hp. reflexivity.
    + intros [H | [H _]]; [ injection H as -> | discriminate ]. reflexivity.
  - intros [H | [H _]]; [ injection H as -> | discriminate ]. reflexivity.
Qed.

(** The [try] body raises when the search raises, and when the
    extraction raises after a search that returned. *)
Lemma full_row_try_raise entity search_query w e w1 :
  self_search_web self search_query 3 w = (Raise e, w1)
  \/ (exists text w0,
        self_search_web self search_query 3 w = (Ok text, w0)
        /\ self_extract_info_with_llm self search_query text w0 = (Raise e, w1)) ->
  row_try svc self entity search_query w = (Raise e, w1).
Proof.
  unfold row_try, bind.
  intros [-> | (text & w0 & -> & ->)]; reflexivity.
Qed.

Lemma row_try_record entity search_query w record w1 :
  row_try svc self entity search_query w = (Ok record, w1) ->
  dict_get "entity" record = Some (scalar_val entity)
  /\ dict_has "timestamp" record = true
  /\ dict_has "analysis" record = true
  /\ dict_has "error" record = false.
Proof.
  unfold row_try, bind, time_strftime, ret.
  destruct (self_search_web self search_query 3 w) as [[text | e] w0]; [ | discriminate ].
  destruct (self_extract_info_with_llm self search_query text w0) as [[v | e] w2];
    [ | discriminate ].
  intros H. injection H as <- _. repeat split.
Qed.

Lemma full_process_rows_total total_rows query_col template rows :
  forall results s,
  Forall (fun ir => is_ok (row_query svc query_col template (snd ir)) = true
                    /\ progress_error (fst ir) total_rows = None) rows ->
  exists records s',
    process_rows svc self progress_error total_rows query_col template rows results s
    = (Ok (results ++ records)%list, s')
    /\ Forall2 (row_outcome query_col) rows records.
Proof.
  induction rows as [ | [idx r] rows IH]; intros results s Hall.
  - exists [], s. simpl. rewrite app_nil_r. split; [ reflexivity | constructor ].
  - inversion Hall as [ | ir rs [Hq Hp] Hrest]; subst. cbn [fst snd] in Hq, Hp.
    destruct (row_query svc query_col template r) as [[entity q] | e] eqn:Hr;
      [ | discriminate ].
    apply row_query_inv in Hr as [Hg Hf].
    cbn [process_rows]. unfold pbind.
    rewrite (full_process_row_run _ _ _ _ _ _ _ _ _ Hg Hf Hp).
    destruct (row_try svc self entity q (world s)) as [[record | e] w1] eqn:Htry.
    + destruct (IH (results ++ [record])%list
                  {| world := add_sleep 2 w1;
                     page := (page s ++ [BarProgress idx total_rows;
                                         StatusText idx total_rows])%list |} Hrest)
        as (records & s' & Hrun & Hout).
      exists (record :: records), s'. rewrite Hrun, <- app_assoc.
      split; [ reflexivity | ]. constructor; [ | exact Hout ].
      destruct (row_try_record _ _ _ _ _ Htry) as (He & Ht & Ha & Hn).
      exists entity. cbn [snd]. repeat split; try assumption. left. split; assumption.
    + destruct (IH (results ++ [error_record svc entity e (clock_reads w1)])%list
                  {| world := add_sleep 2 (tick_clock w1);
                     page := (page s ++ [BarProgress idx total_rows;
                                         StatusText idx total_rows])%list |} Hrest)
        as (records & s' & Hrun & Hout).
      exists (error_record svc entity e (clock_reads w1) :: records), s'.
      rewrite Hrun, <- app_assoc. split; [ reflexivity | ].
      constructor; [ | exact Hout ].
      exists entity. cbn [snd]. repeat split; try assumption. right. split; reflexivity.
Qed.

End OrchestratorRuns.

(** For a frame with the default index, a progress bar that takes the
    updates of its rows, and the agent of the source file, the loop in
    full returns what [process_data] returns and leaves the same
    world. *)
Lemma full_process_rows_default svc progress_error total_rows query_col template rows :
  forall start results s,
  (forall i, start <= i < start + length rows ->
             progress_error (Orchestrator.LInt (Z.of_nat i)) total_rows = None) ->
  fst (Orchestrator.process_rows svc (Orchestrator.agent_of svc) progress_error total_rows
         query_col template (Orchestrator.with_index_from start rows) results s)
  = fst (process_rows svc query_col template rows results (Orchestrator.world s))
  /\ Orchestrator.world
       (snd (Orchestrator.process_rows svc (Orchestrator.agent_of svc) progress_error
               total_rows query_col template
               (Orchestrator.with_index_from start rows) results s))
     = snd (process_rows svc query_col template rows results (Orchestrator.world s)).
Proof.
  induction rows as [ | r rows IH]; intros start results s Hp.
  - split; reflexivity.
  - cbn [Orchestrator.with_index_from Orchestrator.process_rows process_rows].
    unfold Orchestrator.pbind, bind.
    destruct (row_query svc query_col template r) as [[entity q] | e] eqn:Hr.
    + pose proof Hr as Hr'. apply row_query_inv in Hr' as [Hg Hf].
      rewrite (full_process_row_run svc _ progress_error _ _ _ _ _ _ _ _ _ Hg Hf)
        by (apply Hp; simpl; lia).
      rewrite (process_row_run svc _ _ _ _ _ _ _ Hr).
      change (Orchestrator.row_try svc (Orchestrator.agent_of svc) entity q)
        with (row_try svc entity q).
      rewrite row_try_run.
      apply IH. intros i Hi. apply Hp. simpl. lia.
    + rewrite (full_process_row_raise svc _ progress_error _ _ _ _ _ _ _ _ (or_introl Hr)).
      rewrite (process_row_raise svc _ _ _ _ _ _ Hr). split; reflexivity.
Qed.

(** [process_data] around its loop: three calls draw the progress
    widgets before, two empty them after a loop that returned. *)
Lemma full_process_data_run svc self progress_error data query_col template s :
  Orchestrator.process_data svc self progress_error data query_col template s
  = match Orchestrator.process_rows svc self progress_error (length data)
            query_col template data []
            {| Orchestrator.world := Orchestrator.world s;
               Orchestrator.page :=
                 (Orchestrator.page s
                  ++ [Orchestrator.Columns [3%Z; 1%Z]; Orchestrator.BarCreate 0;
                      Orchestrator.StatusCreate])%list |} with
    | (Ok results, s') =>
        (Ok results,
         {| Orchestrator.world := Orchestrator.world s';
            Orchestrator.page :=
              (Orchestrator.page s'
               ++ [Orchestrator.BarEmpty; Orchestrator.StatusEmpty])%list |})
    | (Raise e, s') => (Raise e, s')
    end.
Proof.
  unfold Orchestrator.process_data, Orchestrator.pbind, Orchestrator.draw,
    Orchestrator.pret.
  cbn [Orchestrator.world Orchestrator.page]. rewrite <- !app_assoc. cbn [app].
  destruct (Orchestrator.process_rows svc self progress_error (length data)
              query_col template data [] _) as [[results | e] s'];
    cbn [Orchestrator.world Orchestrator.page]; [ | reflexivity ].
  rewrite <- app_assoc. reflexivity.
Qed.

Lemma with_index_from_length start rows :
  length (Orchestrator.with_index_from start rows) = length rows.
Proof.
  revert start. induction rows as [ | r rows IH]; intros start; simpl;
    [ | rewrite IH ]; reflexivity.
Qed.

Lemma process_data_default svc progress_error data query_col template w p :
  (forall i, i < length data ->
             progress_error (Orchestrator.LInt (Z.of_nat i)) (length data) = None) ->
  fst (Orchestrator.process_data svc (Orchestrator.agent_of svc) progress_error
         (Orchestrator.with_default_index data) query_col template
         {| Orchestrator.world := w; Orchestrator.page := p |})
  = fst (process_data svc data query_col template w)
  /\ Orchestrator.world
       (snd (Orchestrator.process_data svc (Orchestrator.agent_of svc) progress_error
               (Orchestrator.with_default_index data) query_col template
               {| Orchestrator.world := w; Orchestrator.page := p |}))
     = snd (process_data svc data query_col template w).
Proof.
  intros Hp. rewrite full_process_data_run.
  unfold Orchestrator.with_default_index, process_data.
  rewrite with_index_from_length. cbn [Orchestrator.world Orchestrator.page].
  pose proof (full_process_rows_default svc progress_error (length data) query_col
                template data 0 []
                {| Orchestrator.world := w;
                   Orchestrator.page :=
                     (p ++ [Orchestrator.Columns [3%Z; 1%Z]; Orchestrator.BarCreate 0;
                            Orchestrator.StatusCreate])%list |})
    as [Hfst Hsnd].
  { intros i Hi. apply Hp. lia. }
  cbn [Orchestrator.world] in Hfst, Hsnd.
  destruct (Orchestrator.process_rows svc (Orchestrator.agent_of svc) progress_error
              (length data) query_col template (Orchestrator.with_index_from 0 data) []
              _) as [[results | e] s'];
    cbn [fst snd Orchestrator.world] in *; rewrite <- Hfst, <- Hsnd; split; reflexivity.
Qed.

(** C2, as the code has it.  Whatever the two methods of the agent do:
    when the search or the extraction of a row raises, the exception is
    caught at the row boundary, a record with the row's entity, the
    text of the exception as [error] and a timestamp is appended, the
    two seconds are slept, and the loop goes on with the next row; so
    when the statements before the [try] succeed for every row,
    [process_data] returns one record per row, each with a timestamp
    and either an analysis or an error.  An exception raised before
    the [try], by the entity, by the rendering of the query or by the
    progress update, is not caught: it ends the loop at that row. *)
Theorem process_data_catches_row_failures svc self progress_error :
  (forall total_rows query_col template idx r rest results s entity search_query e w1,
      row_get r query_col = Ok entity ->
      str_format svc template entity = Ok search_query ->
      progress_error idx total_rows = None ->
      Orchestrator.self_search_web self search_query 3 (Orchestrator.world s)
        = (Raise e, w1)
      \/ (exists text w0,
            Orchestrator.self_search_web self search_query 3 (Orchestrator.world s)
            = (Ok text, w0)
            /\ Orchestrator.self_extract_info_with_llm self search_query text w0
               = (Raise e, w1)) ->
      Orchestrator.process_rows svc self progress_error total_rows query_col template
        ((idx, r) :: rest) results s
      = Orchestrator.process_rows svc self progress_error total_rows query_col template
          rest
          (results ++ [[("entity", scalar_val entity);
                        ("error", PStr (exn_str e));
                        ("timestamp", PStr (strftime svc (clock_reads w1)))]])%list
          {| Orchestrator.world := add_sleep 2 (tick_clock w1);
             Orchestrator.page :=
               (Orchestrator.page s
                ++ [Orchestrator.BarProgress idx total_rows;
                    Orchestrator.StatusText idx total_rows])%list |})
  /\ (forall data query_col template s,
      Forall (fun ir =>
                is_ok (row_query svc query_col template (snd ir)) = true
                /\ progress_error (fst ir) (length data) = None) data ->
      exists results s',
        Orchestrator.process_data svc self progress_error data query_col template s
        = (Ok results, s')
        /\ length results = length data
        /\ Forall2 (Orchestrator.row_outcome query_col) data results)
  /\ (forall total_rows query_col template idx r rest results s e,
      row_query svc query_col template r = Raise e
      \/ (is_ok (row_query svc query_col template r) = true
          /\ progress_error idx total_rows = Some e) ->
      Orchestrator.process_rows svc self progress_error total_rows query_col template
        ((idx, r) :: rest) results s
      = (Raise e, s)).
Proof.
  split; [ | split ].
  - intros total_rows query_col template idx r rest results s entity search_query e w1
      Hg Hf Hp Hraise.
    cbn [Orchestrator.process_rows]. unfold Orchestrator.pbind.
    rewrite (full_process_row_run svc self progress_error _ _ _ _ _ _ _ _ _ Hg Hf Hp).
    rewrite (full_row_try_raise svc self entity search_query _ e w1 Hraise).
    reflexivity.
  - intros data query_col template s Hall.
    rewrite full_process_data_run.
    destruct (full_process_rows_total svc self progress_error (length data) query_col
                template data []
                {| Orchestrator.world := Orchestrator.world s;
                   Orchestrator.page :=
                     (Orchestrator.page s
                      ++ [Orchestrator.Columns [3%Z; 1%Z]; Orchestrator.BarCreate 0;
                          Orchestrator.StatusCreate])%list |} Hall)
      as (records & s' & Hrun & Hout).
    rewrite Hrun. simpl app.
    eexists; eexists. split; [ reflexivity | ].
    split; [ symmetry; exact (Forall2_length Hout) | exact Hout ].
  - intros total_rows query_col template idx r rest results s e Hraise.
    cbn [Orchestrator.process_rows]. unfold Orchestrator.pbind.
    rewrite (full_process_row_raise svc self progress_error _ _ _ _ _ _ _ _ Hraise).
    reflexivity.
Qed.

Lemma process_data_catches_row_failures_witness :
  (Forall (fun ir =>
             is_ok (row_query Scenario.services "company" Scenario.template (snd ir)) = true
             /\ Orchestrator.no_progress_error (fst ir) (length (Orchestrator.with_default_index Scenario.data))
                = None)
     (Orchestrator.with_default_index Scenario.data)
   /\ exists results s',
        Orchestrator.process_data Scenario.services
          (Orchestrator.flaky_agent Scenario.services) Orchestrator.no_progress_error
          (Orchestrator.with_default_index Scenario.data) "company" Scenario.template
          Orchestrator.session0
        = (Ok results, s')
        /\ length results = length (Orchestrator.with_default_index Scenario.data)
        /\ Forall2 (Orchestrator.row_outcome "company")
             (Orchestrator.with_default_index Scenario.data) results)
  /\ (Orchestrator.self_search_web (Orchestrator.flaky_agent Scenario.services)
        "Latest news about Globex" 3 (Orchestrator.world Orchestrator.session0)
      = (Raise (Exn "ConnectionError" "connection refused"), world0)
      /\ Orchestrator.process_rows Scenario.services
           (Orchestrator.flaky_agent Scenario.services) Orchestrator.no_progress_error 2
           "company" Scenario.template
           [(Orchestrator.LInt 0, [("company", SStr "Globex")]);
            (Orchestrator.LInt 1, [("company", SStr "Initech")])]
           [] Orchestrator.session0
         = Orchestrator.process_rows Scenario.services
             (Orchestrator.flaky_agent Scenario.services) Orchestrator.no_progress_error 2
             "company" Scenario.template
             [(Orchestrator.LInt 1, [("company", SStr "Initech")])]
             ([] ++ [[("entity", scalar_val (SStr "Globex"));
                      ("error", PStr (exn_str (Exn "ConnectionError" "connection refused")));
                      ("timestamp", PStr (strftime Scenario.services (clock_reads world0)))]])%list
             {| Orchestrator.world := add_sleep 2 (tick_clock world0);
                Orchestrator.page :=
                  (Orchestrator.page Orchestrator.session0
                   ++ [Orchestrator.BarProgress (Orchestrator.LInt 0) 2;
                       Orchestrator.StatusText (Orchestrator.LInt 0) 2])%list |})
  /\ (row_query Scenario.services "company" "Latest news about {entity"
        [("company", SStr "Acme")]
      = Raise (ValueError "expected '}' before end of string")
      /\ Orchestrator.process_rows Scenario.services
           (Orchestrator.flaky_agent Scenario.services) Orchestrator.no_progress_error 1
           "company" "Latest news about {entity"
           [(Orchestrator.LInt 0, [("company", SStr "Acme")])] [] Orchestrator.session0
         = (Raise (ValueError "expected '}' before end of string"), Orchestrator.session0))
  /\ ((is_ok (row_query Scenario.services "company" Scenario.template
                [("company", SStr "Acme")]) = true
       /\ Orchestrator.text_labels_error (Orchestrator.LStr "first") 1
          = Some (TypeError ("can only concatenate str (not " ++ dq ++ "int" ++ dq
                             ++ ") to str")))
      /\ Orchestrator.process_rows Scenario.services
           (Orchestrator.flaky_agent Scenario.services) Orchestrator.text_labels_error 1
           "company" Scenario.template
           [(Orchestrator.LStr "first", [("company", SStr "Acme")])] []
           Orchestrator.session0
         = (Raise (TypeError ("can only concatenate str (not " ++ dq ++ "int" ++ dq
                              ++ ") to str")),
            Orchestrator.session0)).
Proof.
  assert (Hall : Forall (fun ir =>
             is_ok (row_query Scenario.services "company" Scenario.template (snd ir)) = true
             /\ Orchestrator.no_progress_error (fst ir)
                  (length (Orchestrator.with_default_index Scenario.data)) = None)
            (Orchestrator.with_default_index Scenario.data))
    by (repeat constructor).
  assert (Hsearch : Orchestrator.self_search_web (Orchestrator.flaky_agent Scenario.services)
                      "Latest news about Globex" 3 (Orchestrator.world Orchestrator.session0)
                    = (Raise (Exn "ConnectionError" "connection refused"), world0))
    by reflexivity.
  assert (Hrender : row_query Scenario.services "company" "Latest news about {entity"
                      [("company", SStr "Acme")]
                    = Raise (ValueError "expected '}' before end of string"))
    by reflexivity.
  assert (Hlabel : is_ok (row_query Scenario.services "company" Scenario.template
                            [("company", SStr "Acme")]) = true
                   /\ Orchestrator.text_labels_error (Orchestrator.LStr "first") 1
                      = Some (TypeError ("can only concatenate str (not " ++ dq ++ "int" ++ dq
                                         ++ ") to str")))
    by (split; reflexivity).
  split; [ split; [ exact Hall | ]
         | split; [ split; [ exact Hsearch | ]
                  | split; [ split; [ exact Hrender | ] | split; [ exact Hlabel | ] ] ] ].
  - exact (proj1 (proj2 (process_data_catches_row_failures Scenario.services
                           (Orchestrator.flaky_agent Scenario.services)
                           Orchestrator.no_progress_error))
             (Orchestrator.with_default_index Scenario.data) "company" Scenario.template
             Orchestrator.session0 Hall).
  - exact (proj1 (process_data_catches_row_failures Scenario.services
                    (Orchestrator.flaky_agent Scenario.services)
                    Orchestrator.no_progress_error)
             2 "company" Scenario.template (Orchestrator.LInt 0)
             [("company", SStr "Globex")]
             [(Orchestrator.LInt 1, [("company", SStr "Initech")])] []
             Orchestrator.session0 (SStr "Globex") "Latest news about Globex"
             (Exn "ConnectionError" "connection refused") world0
             eq_refl eq_refl eq_refl (or_introl Hsearch)).
  - exact (proj2 (proj2 (process_data_catches_row_failures Scenario.services
                           (Orchestrator.flaky_agent Scenario.services)
                           Orchestrator.no_progress_error))
             1 "company" "Latest news about {entity" (Orchestrator.LInt 0)
             [("company", SStr "Acme")] [] [] Orchestrator.session0
             (ValueError "expected '}' before end of string") (or_introl Hrender)).
  - exact (proj2 (proj2 (process_data_catches_row_failures Scenario.services
                           (Orchestrator.flaky_agent Scenario.services)
                           Orchestrator.text_labels_error))
             1 "company" Scenario.template (Orchestrator.LStr "first")
             [("company", SStr "Acme")] [] [] Orchestrator.session0
             (TypeError ("can only concatenate str (not " ++ dq ++ "int" ++ dq ++ ") to str"))
             (or_intror Hlabel)).
Defined.

(** C2 as stated fails: a template whose replacement field is never
    closed makes the rendering of the first row's query raise, and the
    exception leaves [process_data]; no record is made for the row and
    the second row is never reached. *)
Lemma render_failure_aborts_batch :
  process_data Scenario.services Scenario.data "company" "Latest news about {entity" world0
  = (Raise (ValueError "expected '}' before end of string"), world0).
Proof. reflexivity. Qed.




(** ** The completion step *)

(** C4.  When the completion call raises, or the text it returns is
    rejected by the JSON decoder, [extract_info_with_llm] does not
    raise: it returns the dictionary whose [error] is
    "LLM processing error: " followed by the text of the exception,
    whose [extracted_info] is [None], whose [key_points] is the empty
    list, whose [source_quality] is "error" and whose [confidence] is
    "none". *)
Theorem extract_info_with_llm_failure svc query search_results w e :
  chat_create svc (chat_calls w) (completion_request (prompt_of query search_results))
    = Raise e
  \/ (exists text rest,
        chat_create svc (chat_calls w)
          (completion_request (prompt_of query search_results))
        = Ok (Some text :: rest)
        /\ json_loads svc text = Raise e) ->
  exists d w',
    extract_info_with_llm svc query search_results w = (Ok (PDict d), w')
    /\ dict_get "error" d = Some (PStr ("LLM processing error: " ++ exn_str e))
    /\ dict_get "extracted_info" d = Some PNone
    /\ dict_get "key_points" d = Some (PList [])
    /\ dict_get "source_quality" d = Some (PStr "error")
    /\ dict_get "confidence" d = Some (PStr "none").
Proof.
  intros H. rewrite extract_info_with_llm_run.
  assert (Hv : analysis_of svc (chat_calls w) query search_results = llm_error e).
  { unfold analysis_of, completion_outcome.
    destruct H as [-> | (text & rest & -> & Hl)]; simpl; [ reflexivity | ].
    rewrite Hl. reflexivity. }
  rewrite Hv. eexists; eexists. split; [ reflexivity | ]. repeat split.
Qed.

Lemma extract_info_with_llm_failure_witness :
  (chat_create Scenario.services (chat_calls (Scenario.after_calls 0 1))
     (completion_request (prompt_of "Latest news about Globex" EmptyString))
   = Raise Scenario.JSONDecodeError
   \/ exists text rest,
        chat_create Scenario.services (chat_calls (Scenario.after_calls 0 1))
          (completion_request (prompt_of "Latest news about Globex" EmptyString))
        = Ok (Some text :: rest)
        /\ json_loads Scenario.services text = Raise Scenario.JSONDecodeError)
  /\ exists d w',
       extract_info_with_llm Scenario.services "Latest news about Globex" EmptyString
         (Scenario.after_calls 0 1) = (Ok (PDict d), w')
       /\ dict_get "error" d
          = Some (PStr ("LLM processing error: " ++ exn_str Scenario.JSONDecodeError))
       /\ dict_get "extracted_info" d = Some PNone
       /\ dict_get "key_points" d = Some (PList [])
       /\ dict_get "source_quality" d = Some (PStr "error")
       /\ dict_get "confidence" d = Some (PStr "none").
Proof.
  assert (H : chat_create Scenario.services (chat_calls (Scenario.after_calls 0 1))
                (completion_request (prompt_of "Latest news about Globex" EmptyString))
              = Raise Scenario.JSONDecodeError
              \/ exists text rest,
                   chat_create Scenario.services (chat_calls (Scenario.after_calls 0 1))
                     (completion_request
                        (prompt_of "Latest news about Globex" EmptyString))
                   = Ok (Some text :: rest)
                   /\ json_loads Scenario.services text = Raise Scenario.JSONDecodeError).
  { right. exists "I could not find anything.", []. split; reflexivity. }
  split; [ exact H | ].
  exact (extract_info_with_llm_failure Scenario.services "Latest news about Globex"
           EmptyString (Scenario.after_calls 0 1) Scenario.JSONDecodeError H).
Defined.

(** C6, as the code has it.  [extract_info_with_llm] always returns,
    and what it returns is either the error dictionary of the [except]
    branch, which has the sentinel shape, or the value the JSON decoder
    gave for the text of the first choice, handed on as it is: nothing
    checks that it is an object or which fields it has. *)
Theorem extract_info_with_llm_shapes svc query search_results w :
  exists v w',
    extract_info_with_llm svc query search_results w = (Ok v, w')
    /\ ((exists e,
          completion_outcome svc (chat_calls w) query search_results = Raise e
          /\ v = llm_error e
          /\ sentinel_shape v = true
          /\ populated_shape v = false)
        \/ (exists text rest,
              chat_create svc (chat_calls w)
                (completion_request (prompt_of query search_results))
              = Ok (Some text :: rest)
              /\ json_loads svc text = Ok v)).
Proof.
  rewrite extract_info_with_llm_run. eexists; eexists. split; [ reflexivity | ].
  unfold analysis_of, completion_outcome.
  destruct (chat_create svc (chat_calls w)
              (completion_request (prompt_of query search_results)))
    as [[ | [text | ] rest] | e]; simpl.
  - left. eexists. repeat split.
  - destruct (json_loads svc text) as [v | e] eqn:Hl.
    + right. exists text, rest. split; [ reflexivity | assumption ].
    + left. exists e. repeat split.
  - left. eexists. repeat split.
  - left. exists e. repeat split.
Qed.

(** C6 as stated fails: the completion service answers the text of an
    empty JSON object, and [extract_info_with_llm] returns the empty
    dictionary, which has neither the populated nor the sentinel
    shape. *)
Lemma empty_object_is_neither_shape :
  chat_create Scenario.services 2 (completion_request (prompt_of "q" "r")) = Ok [Some "{}"]
  /\ json_loads Scenario.services "{}" = Ok (PDict [])
  /\ fst (extract_info_with_llm Scenario.services "q" "r" (Scenario.after_calls 0 2))
     = Ok (PDict [])
  /\ populated_shape (PDict []) = false
  /\ sentinel_shape (PDict []) = false.
Proof. repeat split. Qed.

(** ** The query *)

(** C5, as the code has it.  The template "News about {entity}" and the
    entity "Acme" give exactly "News about Acme".  A template without
    the placeholder does not make the rendering fail: a template that
    holds no brace at all is returned unchanged as the query. *)
Theorem str_format_entity svc :
  str_format svc "News about {entity}" (SStr "Acme") = Ok "News about Acme"
  /\ (forall template entity,
        contains_char "{" template = false ->
        contains_char "}" template = false ->
        str_format svc template entity = Ok template).
Proof.
  split; [ reflexivity | ].
  intros template entity Ho Hc. apply brace_free_format; assumption.
Qed.

Lemma str_format_entity_witness :
  contains_char "{" "News about" = false
  /\ contains_char "}" "News about" = false
  /\ str_format Scenario.services "News about" (SStr "Acme") = Ok "News about".
Proof.
  split; [ reflexivity | ]. split; [ reflexivity | ].
  apply (proj2 (str_format_entity Scenario.services)); reflexivity.
Defined.

(** C5 as stated fails: the template "News about" has no placeholder,
    and rendering it returns a query instead of failing. *)
Lemma template_without_placeholder_renders :
  str_format Scenario.services "News about" (SStr "Acme") = Ok "News about".
Proof. reflexivity. Qed.

(** ** The search *)



Lemma percent_encode_length s : String.length s <= String.length (percent_encode s).
Proof.
  induction s as [ | c s IH]; [ apply le_n | ].
  cbn [percent_encode]. destruct (unreserved c); simpl; lia.
Qed.

(** Escaping leaves a query as it is exactly when the query holds
    unreserved characters only. *)
Lemma percent_encode_fixed s :
  percent_encode s = s <-> all_chars unreserved s = true.
Proof.
  induction s as [ | c s IH]; [ split; reflexivity | ].
  cbn [percent_encode all_chars]. destruct (unreserved c) eqn:Hc; simpl.
  - split.
    + intros H. injection H as H. apply IH. exact H.
    + intros H. apply IH in H. rewrite H. reflexivity.
  - split; [ | discriminate ].
    intros H. injection H as _ H.
    pose proof (percent_encode_length s) as Hlen.
    rewrite <- H in Hlen at 1. simpl in Hlen. lia.
Qed.

Lemma append_inj_l (p a b : string) : p ++ a = p ++ b -> a = b.
Proof.
  induction p as [ | c p IH]; simpl; intros H; [ exact H | ].
  injection H as H. exact (IH H).
Qed.

(** C8, as the code has it.  [search_web] calls [requests.get] exactly
    once; the URL it passes is the fixed address followed by the query
    as it is, with no escaping of its own, and the only header is the
    desktop-browser User-Agent.  The URL passed is the fixed address
    followed by the escaped query exactly when the query holds
    unreserved characters only. *)
Theorem search_web_request svc query num_results w :
  http_calls (snd (search_web svc query num_results w)) = S (http_calls w)
  /\ http_log (snd (search_web svc query num_results w))
     = (http_log w
        ++ [(("https://html.duckduckgo.com/html/?q=" ++ query)%string,
             [("User-Agent",
               "Mozilla/5.0 (Windows NT 10.0; Win64; x64) AppleWebKit/537.36 (KHTML, like Gecko) Chrome/91.0.4472.124 Safari/537.36")])])%list
  /\ ("https://html.duckduckgo.com/html/?q=" ++ query
      = "https://html.duckduckgo.com/html/?q=" ++ percent_encode query
      <-> all_chars unreserved query = true).
Proof.
  rewrite search_web_run. split; [ reflexivity | ]. split; [ reflexivity | ].
  rewrite <- percent_encode_fixed. split.
  - intros H. symmetry. exact (append_inj_l _ _ _ H).
  - intros ->. reflexivity.
Qed.

Lemma search_web_request_witness :
  all_chars unreserved "Acme" = true
  /\ "https://html.duckduckgo.com/html/?q=" ++ "Acme"
     = "https://html.duckduckgo.com/html/?q=" ++ percent_encode "Acme"
  /\ http_log (snd (search_web Scenario.services "Acme" 3 world0))
     = ([] ++ [(("https://html.duckduckgo.com/html/?q=" ++ "Acme")%string,
                [("User-Agent",
                  "Mozilla/5.0 (Windows NT 10.0; Win64; x64) AppleWebKit/537.36 (KHTML, like Gecko) Chrome/91.0.4472.124 Safari/537.36")])])%list.
Proof.
  assert (H : all_chars unreserved "Acme" = true) by reflexivity.
  split; [ exact H | ]. split.
  - exact (proj2 (proj2 (proj2 (search_web_request Scenario.services "Acme" 3 world0))) H).
  - exact (proj1 (proj2 (search_web_request Scenario.services "Acme" 3 world0))).
Defined.

(** C8 as stated fails: for the query "A&B" the URL requested holds the
    ampersand itself, not its escape. *)
Lemma query_is_not_escaped :
  http_log (snd (search_web Scenario.services "A&B" 3 world0))
  = [("https://html.duckduckgo.com/html/?q=A&B", self_headers)]
  /\ "https://html.duckduckgo.com/html/?q=" ++ percent_encode "A&B"
     = "https://html.duckduckgo.com/html/?q=A%26B"
  /\ "https://html.duckduckgo.com/html/?q=A&B"
     <> "https://html.duckduckgo.com/html/?q=" ++ percent_encode "A&B".
Proof. split; [ reflexivity | ]. split; [ reflexivity | ]. discriminate. Qed.

(** ** The summary view *)

(** C9, as the code has it.  The summary holds one row for each record
    that has an [analysis], in the order of the records, and none for a
    record without: when every analysis is a dictionary and comes with
    an entity, the row of a record has the columns Entity, Main
    Findings, Confidence and Source Quality, the last three being the
    fields [extracted_info], [confidence] and [source_quality] of the
    analysis, or "N/A" for a field the analysis does not have. *)
Theorem summary_data_rows results :
  Forall (fun r => dict_has "analysis" r = true ->
                   dict_has "entity" r = true
                   /\ exists a, dict_get "analysis" r = Some (PDict a)) results ->
  exists rows,
    summary_data results = Ok rows
    /\ Forall2 (fun r row =>
         exists entity a,
           dict_get "entity" r = Some entity
           /\ dict_get "analysis" r = Some (PDict a)
           /\ row = [("Entity", entity);
                     ("Main Findings", dict_get_default "extracted_info" (PStr "N/A") a);
                     ("Confidence", dict_get_default "confidence" (PStr "N/A") a);
                     ("Source Quality", dict_get_default "source_quality" (PStr "N/A") a)])
         (filter (dict_has "analysis") results) rows.
Proof.
  intros H. destruct (summary_loop_run results [] H) as (rows & Hrun & Hall).
  exists rows. split; assumption.
Qed.

Lemma summary_data_rows_witness :
  exists rows,
    summary_data
      [[("entity", PStr "Acme"); ("analysis", PDict [("confidence", PStr "high")])];
       [("entity", PStr "Globex"); ("error", PStr "boom")]]
    = Ok rows
    /\ Forall2 (fun r row =>
         exists entity a,
           dict_get "entity" r = Some entity
           /\ dict_get "analysis" r = Some (PDict a)
           /\ row = [("Entity", entity);
                     ("Main Findings", dict_get_default "extracted_info" (PStr "N/A") a);
                     ("Confidence", dict_get_default "confidence" (PStr "N/A") a);
                     ("Source Quality", dict_get_default "source_quality" (PStr "N/A") a)])
         (filter (dict_has "analysis")
            [[("entity", PStr "Acme"); ("analysis", PDict [("confidence", PStr "high")])];
             [("entity", PStr "Globex"); ("error", PStr "boom")]])
         rows.
Proof.
  apply summary_data_rows.
  constructor; [ | constructor; [ | constructor ] ].
  - intros _. split; [ reflexivity | ]. eexists; reflexivity.
  - intros H. discriminate H.
Defined.

(** C9 as stated fails: a record with a row-level error and no analysis
    gets no row in the summary, and with no row no table is shown. *)
Lemma error_record_has_no_summary_row :
  summary_data [[("entity", PStr "Acme"); ("error", PStr "boom");
                 ("timestamp", PStr "2024-05-01 10:00:00")]] = Ok []
  /\ summary_view [[("entity", PStr "Acme"); ("error", PStr "boom");
                    ("timestamp", PStr "2024-05-01 10:00:00")]] = Ok None.
Proof. split; reflexivity. Qed.

(** * Further properties *)

(** ** [str.format] *)

Lemma brace_free_inv c s :
  brace_free (String c s) = true ->
  Ascii.eqb c "{" = false /\ Ascii.eqb c "}" = false /\ brace_free s = true.
Proof.
  unfold brace_free.
  change (contains_char "{" (String c s)) with (Ascii.eqb "{" c || contains_char "{" s).
  change (contains_char "}" (String c s)) with (Ascii.eqb "}" c || contains_char "}" s).
  rewrite (Ascii.eqb_sym "{" c), (Ascii.eqb_sym "}" c).
  rewrite !negb_orb. intros H.
  apply andb_true_iff in H as [H1 H2].
  apply andb_true_iff in H1 as [H1 H1'].
  apply andb_true_iff in H2 as [H2 H2'].
  apply negb_true_iff in H1, H2. rewrite H1', H2'. auto.
Qed.

Lemma format_text_prefix svc entity p rest :
  brace_free p = true ->
  format_from svc entity InText (p ++ rest)
  = prepend p (format_from svc entity InText rest).
Proof.
  induction p as [ | c p IH]; intros H.
  - simpl. destruct (format_from svc entity InText rest); reflexivity.
  - apply brace_free_inv in H as (Ho & Hc & Hp).
    change (String c p ++ rest) with (String c (p ++ rest)).
    cbn [format_from fmt_step]. rewrite Ho, Hc, (IH Hp).
    destruct (format_from svc entity InText rest); reflexivity.
Qed.

Lemma format_entity_field svc entity rest :
  format_from svc entity InText ("{entity}" ++ rest)
  = prepend (scalar_str entity) (format_from svc entity InText rest).
Proof. reflexivity. Qed.

(** X1.  In a template made of texts without braces joined by the
    placeholder, every occurrence of the placeholder is replaced by the
    text of the entity and the rest is kept as it is. *)
Theorem str_format_replaces_every_placeholder svc entity pieces :
  Forall (fun p => brace_free p = true) pieces ->
  str_format svc (String.concat "{entity}" pieces) entity
  = Ok (String.concat (scalar_str entity) pieces).
Proof.
  unfold str_format. induction 1 as [ | p pieces Hp Hrest IH].
  - reflexivity.
  - destruct pieces as [ | q pieces].
    + simpl. unfold brace_free in Hp. apply andb_true_iff in Hp as [Ho Hc].
      apply negb_true_iff in Ho, Hc. apply brace_free_format; assumption.
    + change (String.concat "{entity}" (p :: q :: pieces))
        with (p ++ "{entity}" ++ String.concat "{entity}" (q :: pieces)).
      change (String.concat (scalar_str entity) (p :: q :: pieces))
        with (p ++ scalar_str entity ++ String.concat (scalar_str entity) (q :: pieces)).
      rewrite (format_text_prefix _ _ _ _ Hp), format_entity_field, IH.
      reflexivity.
Qed.

Lemma str_format_replaces_every_placeholder_witness :
  Forall (fun p => brace_free p = true) ["Is "; " hiring? Jobs at "; "."]
  /\ str_format Scenario.services "Is {entity} hiring? Jobs at {entity}." (SStr "Acme")
     = Ok "Is Acme hiring? Jobs at Acme.".
Proof.
  assert (H : Forall (fun p => brace_free p = true) ["Is "; " hiring? Jobs at "; "."])
    by (repeat constructor).
  split; [ exact H | ].
  exact (str_format_replaces_every_placeholder Scenario.services (SStr "Acme") _ H).
Defined.

(** X2.  Doubling the braces of a text gives a template that renders
    to that text, whatever the entity. *)
Theorem str_format_escape_braces svc entity text :
  str_format svc (escape_braces text) entity = Ok text.
Proof.
  unfold str_format. induction text as [ | c s IH]; [ reflexivity | ].
  cbn [escape_braces].
  destruct (Ascii.eqb c "{") eqn:Ho; [ | destruct (Ascii.eqb c "}") eqn:Hc ]; simpl orb.
  - apply Ascii.eqb_eq in Ho as ->.
    cbn [format_from fmt_step Ascii.eqb Bool.eqb]. rewrite IH. reflexivity.
  - apply Ascii.eqb_eq in Hc as ->.
    cbn [format_from fmt_step Ascii.eqb Bool.eqb]. rewrite IH. reflexivity.
  - cbn [format_from fmt_step]. rewrite Ho, Hc, IH. reflexivity.
Qed.

Lemma name_char_step name c :
  is_name_char c = true ->
  name_step name c = Goto (InName (snoc name c) false).
Proof.
  unfold name_step.
  destruct c as [[] [] [] [] [] [] [] []]; intros H; try discriminate H; reflexivity.
Qed.

Lemma name_char_not_open c :
  is_name_char c = true -> Ascii.eqb c "{" = false.
Proof.
  destruct c as [[] [] [] [] [] [] [] []]; intros H; try discriminate H; reflexivity.
Qed.

Lemma name_char_not_separator c :
  is_name_char c = true -> Ascii.eqb c "." || Ascii.eqb c "[" = false.
Proof.
  destruct c as [[] [] [] [] [] [] [] []]; intros H; try discriminate H; reflexivity.
Qed.

Lemma name_start_not_digit c :
  is_name_start c = true -> is_digit c = false.
Proof.
  destruct c as [[] [] [] [] [] [] [] []]; intros H; try discriminate H; reflexivity.
Qed.

Lemma append_empty_r (s : string) : s ++ EmptyString = s.
Proof. induction s as [ | c s IH]; simpl; [ | rewrite IH ]; reflexivity. Qed.

Lemma append_assoc (s t u : string) : (s ++ t) ++ u = s ++ t ++ u.
Proof. induction s as [ | c s IH]; simpl; [ | rewrite IH ]; reflexivity. Qed.

(** The scanner reads the characters of a name up to the closing
    brace, and then writes the field. *)
Lemma format_name_scan svc entity name :
  forall acc rest,
  all_chars is_name_char name = true ->
  format_from svc entity (InName acc false) (name ++ "}" ++ rest)
  = match field_text svc entity (acc ++ name) None EmptyString with
    | Ok text => prepend text (format_from svc entity InText rest)
    | Raise e => Raise e
    end.
Proof.
  induction name as [ | c name IH]; intros acc rest H.
  - rewrite append_empty_r. reflexivity.
  - simpl in H. apply andb_true_iff in H as [Hc Hname].
    change (String c name ++ "}" ++ rest) with (String c (name ++ "}" ++ rest)).
    cbn [format_from fmt_step]. rewrite (name_char_step _ _ Hc).
    rewrite (IH _ _ Hname). unfold snoc. rewrite append_assoc. reflexivity.
Qed.

Lemma split_first_name name :
  all_chars is_name_char name = true ->
  split_first name = (name, EmptyString).
Proof.
  induction name as [ | c name IH]; intros H; [ reflexivity | ].
  simpl in H. apply andb_true_iff in H as [Hc Hname].
  cbn [split_first]. rewrite (name_char_not_separator _ Hc), (IH Hname). reflexivity.
Qed.

Lemma identifier_chars name :
  is_identifier name = true ->
  exists c name', name = String c name'
    /\ is_name_start c = true /\ all_chars is_name_char name = true.
Proof.
  destruct name as [ | c name']; [ discriminate | ].
  unfold is_identifier. intros H. apply andb_true_iff in H as [Hc Hn].
  exists c, name'. repeat split; [ assumption | ].
  simpl. unfold is_name_char at 1. rewrite Hc, Hn. reflexivity.
Qed.

Lemma field_text_unknown svc entity name :
  is_identifier name = true ->
  String.eqb name "entity" = false ->
  field_text svc entity name None EmptyString = Raise (KeyError name).
Proof.
  intros Hid Hne.
  destruct (identifier_chars _ Hid) as (c & name' & -> & Hc & Hall).
  unfold field_text. rewrite (split_first_name _ Hall).
  cbn [get_integer get_integer_from]. rewrite (name_start_not_digit _ Hc).
  rewrite Hne. reflexivity.
Qed.

(** X3.  A replacement field that names anything but [entity] makes the
    rendering raise [KeyError] with that name, whatever stands after
    the field. *)
Theorem str_format_unknown_field svc entity p name rest :
  brace_free p = true ->
  is_identifier name = true ->
  String.eqb name "entity" = false ->
  str_format svc (p ++ "{" ++ name ++ "}" ++ rest) entity = Raise (KeyError name).
Proof.
  intros Hp Hid Hne. unfold str_format.
  rewrite (format_text_prefix _ _ _ _ Hp).
  destruct (identifier_chars _ Hid) as (c & name' & Hname & Hc & Hall).
  assert (Hstep : format_from svc entity InText ("{" ++ name ++ "}" ++ rest)
                  = Raise (KeyError name)).
  { rewrite Hname in Hall |- *. simpl in Hall.
    apply andb_true_iff in Hall as [Hc' Hall'].
    change ("{" ++ String c name' ++ "}" ++ rest)
      with (String "{" (String c (name' ++ "}" ++ rest))).
    cbn [format_from fmt_step Ascii.eqb Bool.eqb].
    rewrite (name_char_not_open _ Hc'), (name_char_step _ _ Hc').
    rewrite (format_name_scan _ _ _ _ _ Hall').
    change (snoc EmptyString c ++ name') with (String c name').
    rewrite <- Hname, (field_text_unknown _ _ _ Hid Hne). reflexivity. }
  rewrite Hstep. reflexivity.
Qed.

Lemma str_format_unknown_field_witness :
  brace_free "News about " = true
  /\ is_identifier "company" = true
  /\ String.eqb "company" "entity" = false
  /\ str_format Scenario.services ("News about " ++ "{" ++ "company" ++ "}" ++ " in {entity")
       (SStr "Acme")
     = Raise (KeyError "company").
Proof.
  split; [ reflexivity | ]. split; [ reflexivity | ]. split; [ reflexivity | ].
  exact (str_format_unknown_field Scenario.services (SStr "Acme") "News about "
           "company" " in {entity" eq_refl eq_refl eq_refl).
Defined.

(** X4.  A positional field, [{}], makes the rendering raise
    [IndexError]: [format] is given no positional argument. *)
Theorem str_format_positional_field svc entity p rest :
  brace_free p = true ->
  str_format svc (p ++ "{}" ++ rest) entity
  = Raise (IndexError "Replacement index 0 out of range for positional args tuple").
Proof.
  intros Hp. unfold str_format. rewrite (format_text_prefix _ _ _ _ Hp). reflexivity.
Qed.

Lemma str_format_positional_field_witness :
  brace_free "News about " = true
  /\ str_format Scenario.services ("News about " ++ "{}" ++ " and {entity}") (SStr "Acme")
     = Raise (IndexError "Replacement index 0 out of range for positional args tuple").
Proof.
  split; [ reflexivity | ].
  exact (str_format_positional_field Scenario.services (SStr "Acme") "News about "
           " and {entity}" eq_refl).
Defined.

(** X5.  A brace that is neither doubled nor part of a field makes the
    rendering raise [ValueError]: an opening brace at the very end of
    the template, or a closing brace outside a field that is not
    followed by a second one. *)
Theorem str_format_single_brace svc entity p :
  brace_free p = true ->
  str_format svc (p ++ "{") entity
  = Raise (ValueError "Single '{' encountered in format string")
  /\ (forall q,
        (forall q', q <> String "}" q') ->
        str_format svc (p ++ "}" ++ q) entity
        = Raise (ValueError "Single '}' encountered in format string")).
Proof.
  intros Hp. unfold str_format. split.
  - rewrite (format_text_prefix _ _ _ _ Hp). reflexivity.
  - intros q Hq. rewrite (format_text_prefix _ _ _ _ Hp).
    destruct q as [ | c q']; [ reflexivity | ].
    change ("}" ++ String c q') with (String "}" (String c q')).
    cbn [format_from fmt_step Ascii.eqb Bool.eqb].
    destruct (Ascii.eqb c "}") eqn:Hc; [ | reflexivity ].
    apply Ascii.eqb_eq in Hc as ->. exfalso. exact (Hq q' eq_refl).
Qed.

Lemma str_format_single_brace_witness :
  brace_free "50% off" = true
  /\ (forall q', " at Acme" <> String "}" q')
  /\ str_format Scenario.services ("50% off" ++ "}" ++ " at Acme") (SStr "Acme")
     = Raise (ValueError "Single '}' encountered in format string").
Proof.
  assert (Hq : forall q', " at Acme" <> String "}" q') by (intros q' H; discriminate H).
  split; [ reflexivity | ]. split; [ exact Hq | ].
  exact (proj2 (str_format_single_brace Scenario.services (SStr "Acme") "50% off" eq_refl)
           " at Acme" Hq).
Defined.

(** ** [search_web] *)

Lemma append_entries_entries containers :
  forall results,
  append_entries containers results = (results ++ entries_of containers)%list.
Proof.
  induction containers as [ | c cs IH]; intros results; simpl.
  - rewrite app_nil_r. reflexivity.
  - destruct (result_entry c) as [entry | ]; rewrite IH; simpl;
      [ rewrite <- app_assoc | ]; reflexivity.
Qed.

Lemma entries_of_none containers :
  Forall (fun c => result_entry c = None) containers ->
  entries_of containers = [].
Proof.
  induction 1 as [ | c cs Hc _ IH]; [ reflexivity | ].
  unfold entries_of in *. simpl. rewrite Hc. exact IH.
Qed.

(** X6.  For a limit that is not negative, the results are the entries
    of the first [num_results] containers of the page, in page order.
    The limit counts containers, not entries: a container that lacks a
    title or a snippet is skipped and no later container takes its
    place. *)
Theorem search_results_first_containers soup num_results :
  (0 <= num_results)%Z ->
  search_results soup num_results
  = entries_of (firstn (Z.to_nat num_results) (select "result__body" soup))
  /\ (forall skipped rest,
        select "result__body" soup = (skipped ++ rest)%list ->
        Z.of_nat (length skipped) = num_results ->
        Forall (fun c => result_entry c = None) skipped ->
        search_results soup num_results = []).
Proof.
  intros Hn.
  assert (Heq : search_results soup num_results
                = entries_of (firstn (Z.to_nat num_results) (select "result__body" soup))).
  { unfold search_results, slice_to.
    destruct (Z.ltb_spec num_results 0); [ lia | ].
    apply append_entries_entries. }
  split; [ exact Heq | ].
  intros skipped rest Hsel Hlen Hnone. rewrite Heq, Hsel.
  replace (Z.to_nat num_results) with (length skipped + 0) by lia.
  rewrite firstn_app_2. simpl. rewrite app_nil_r.
  apply entries_of_none. assumption.
Qed.

Lemma search_results_first_containers_witness :
  (0 <= 2)%Z
  /\ search_results Pages.late_hit 2
     = entries_of (firstn (Z.to_nat 2) (select "result__body" Pages.late_hit))
  /\ search_results Pages.late_hit 2 = []
  /\ search_results Pages.late_hit 3
     = ["Title: Acme Corp" ++ nl ++ "Snippet: Anvils since 1949." ++ nl].
Proof.
  assert (H : (0 <= 2)%Z) by lia.
  split; [ exact H | ]. split; [ | split ].
  - exact (proj1 (search_results_first_containers Pages.late_hit 2 H)).
  - apply (proj2 (search_results_first_containers Pages.late_hit 2 H)
             (firstn 2 (select "result__body" Pages.late_hit))
             (skipn 2 (select "result__body" Pages.late_hit)));
      [ reflexivity | reflexivity | repeat constructor ].
  - reflexivity.
Defined.

(** X7.  For a negative limit the slice counts from the end: the
    results are the entries of all containers but the last
    [- num_results], and there are none when the page has no more
    containers than that. *)
Theorem search_results_negative_limit soup num_results :
  (num_results < 0)%Z ->
  search_results soup num_results
  = entries_of (firstn (length (select "result__body" soup) - Z.to_nat (- num_results))
                  (select "result__body" soup))
  /\ (length (select "result__body" soup) <= Z.to_nat (- num_results) ->
      search_results soup num_results = []).
Proof.
  intros Hn.
  assert (Heq : search_results soup num_results
                = entries_of (firstn (length (select "result__body" soup)
                                      - Z.to_nat (- num_results))
                                (select "result__body" soup))).
  { unfold search_results, slice_to.
    destruct (Z.ltb_spec num_results 0); [ | lia ].
    rewrite append_entries_entries. simpl. f_equal. f_equal. lia. }
  split; [ exact Heq | ].
  intros Hlen. rewrite Heq.
  replace (length (select "result__body" soup) - Z.to_nat (- num_results)) with 0 by lia.
  reflexivity.
Qed.

Lemma search_results_negative_limit_witness :
  (-2 < 0)%Z
  /\ search_results Pages.late_hit (-2)
     = entries_of (firstn (length (select "result__body" Pages.late_hit) - Z.to_nat (- -2))
                     (select "result__body" Pages.late_hit))
  /\ (-3 < 0)%Z
  /\ length (select "result__body" Pages.late_hit) <= Z.to_nat (- -3)
  /\ search_results Pages.late_hit (-3) = [].
Proof.
  assert (H2 : (-2 < 0)%Z) by lia.
  assert (H3 : (-3 < 0)%Z) by lia.
  assert (Hl : length (select "result__body" Pages.late_hit) <= Z.to_nat (- -3))
    by (vm_compute; lia).
  split; [ exact H2 | ]. split; [ | split; [ exact H3 | split; [ exact Hl | ] ] ].
  - exact (proj1 (search_results_negative_limit Pages.late_hit (-2) H2)).
  - exact (proj2 (search_results_negative_limit Pages.late_hit (-3) H3) Hl).
Defined.

Lemma entries_of_titles containers :
  Forall (fun entry => starts_with "Title: " entry = true) (entries_of containers).
Proof.
  induction containers as [ | c cs IH]; [ constructor | ].
  unfold entries_of in *. simpl. unfold result_entry at 1.
  destruct (select_one "result__title" c) as [title | ]; [ | exact IH ].
  destruct (select_one "result__snippet" c) as [snippet | ]; [ | exact IH ].
  simpl app. constructor; [ reflexivity | exact IH ].
Qed.

Lemma search_results_titles soup num_results :
  Forall (fun entry => starts_with "Title: " entry = true)
    (search_results soup num_results).
Proof.
  unfold search_results. rewrite append_entries_entries. apply entries_of_titles.
Qed.

Lemma starts_with_app p :
  forall s t, starts_with p s = true -> starts_with p (s ++ t) = true.
Proof.
  induction p as [ | a p IH]; intros s t H; [ reflexivity | ].
  destruct s as [ | b s]; [ discriminate H | ].
  simpl in H |- *. apply andb_true_iff in H as [Hab Hp].
  rewrite Hab, (IH _ _ Hp). reflexivity.
Qed.

Lemma concat_titles entries :
  Forall (fun entry => starts_with "Title: " entry = true) entries ->
  entries <> [] ->
  starts_with "Title: " (String.concat nl entries) = true.
Proof.
  intros Hall Hne. destruct Hall as [ | entry rest He Hrest]; [ contradiction | ].
  destruct rest as [ | entry' rest']; [ exact He | ].
  change (String.concat nl (entry :: entry' :: rest'))
    with (entry ++ nl ++ String.concat nl (entry' :: rest')).
  apply starts_with_app. exact He.
Qed.

(** X8.  The text [search_web] returns has one of three shapes: it is
    empty, exactly when the page was fetched and parsed and gave no
    result; or it starts with "Title: ", when there are results; or it
    starts with "Search error: ", when the request or the parser
    raised. *)
Theorem search_web_text_shapes svc query num_results w :
  exists text w',
    search_web svc query num_results w = (Ok text, w')
    /\ ((exists page soup,
           requests_get svc (http_calls w) (search_url query) self_headers = Ok page
           /\ html_parser svc page = Ok soup
           /\ ((search_results soup num_results = [] /\ text = EmptyString)
               \/ (search_results soup num_results <> []
                   /\ starts_with "Title: " text = true)))
        \/ ((exists e,
               requests_get svc (http_calls w) (search_url query) self_headers = Raise e
               \/ (exists page,
                     requests_get svc (http_calls w) (search_url query) self_headers
                     = Ok page
                     /\ html_parser svc page = Raise e))
            /\ starts_with "Search error: " text = true)).
Proof.
  rewrite search_web_run. eexists; eexists. split; [ reflexivity | ].
  unfold search_web_text.
  destruct (requests_get svc (http_calls w) (search_url query) self_headers)
    as [page | e].
  - destruct (html_parser svc page) as [soup | e] eqn:Hparse.
    + left. exists page, soup. split; [ reflexivity | ]. split; [ assumption | ].
      destruct (search_results soup num_results) as [ | entry rest] eqn:Hres.
      * left. split; reflexivity.
      * right. split; [ discriminate | ].
        apply concat_titles; [ | discriminate ].
        rewrite <- Hres. apply search_results_titles.
    + right. split; [ | reflexivity ].
      exists e. right. exists page. split; [ reflexivity | assumption ].
  - right. split; [ | reflexivity ]. exists e. left. reflexivity.
Qed.

(** ** [extract_info_with_llm] *)

(** X9.  A completion without choices, or whose first message has no
    content, is a failure like any other: the error dictionary is
    returned, with the text of the [IndexError] or of the [TypeError]
    that the [try] body raised. *)
Theorem extract_info_with_llm_no_content svc query search_results w :
  (chat_create svc (chat_calls w) (completion_request (prompt_of query search_results))
   = Ok [] ->
   fst (extract_info_with_llm svc query search_results w)
   = Ok (llm_error (IndexError "list index out of range")))
  /\ (forall rest,
        chat_create svc (chat_calls w)
          (completion_request (prompt_of query search_results))
        = Ok (None :: rest) ->
        fst (extract_info_with_llm svc query search_results w)
        = Ok (llm_error
                (TypeError "the JSON object must be str, bytes or bytearray, not NoneType"))).
Proof.
  rewrite extract_info_with_llm_run. unfold analysis_of, completion_outcome.
  split; [ intros -> | intros rest -> ]; reflexivity.
Qed.

Lemma extract_info_with_llm_no_content_witness :
  (chat_create Scenario.services (chat_calls (Scenario.after_calls 0 4))
     (completion_request (prompt_of "q" "r")) = Ok []
   /\ fst (extract_info_with_llm Scenario.services "q" "r" (Scenario.after_calls 0 4))
      = Ok (llm_error (IndexError "list index out of range")))
  /\ (chat_create Scenario.services (chat_calls (Scenario.after_calls 0 5))
        (completion_request (prompt_of "q" "r")) = Ok [None]
      /\ fst (extract_info_with_llm Scenario.services "q" "r" (Scenario.after_calls 0 5))
         = Ok (llm_error
                 (TypeError "the JSON object must be str, bytes or bytearray, not NoneType"))).
Proof.
  split; (split; [ reflexivity | ]).
  - exact (proj1 (extract_info_with_llm_no_content Scenario.services "q" "r"
                    (Scenario.after_calls 0 4)) eq_refl).
  - exact (proj2 (extract_info_with_llm_no_content Scenario.services "q" "r"
                    (Scenario.after_calls 0 5)) [] eq_refl).
Defined.

(** ** [process_data] *)

Lemma rows_world_effects svc qs :
  forall w,
  http_calls (rows_world svc qs w) = http_calls w + length qs
  /\ chat_calls (rows_world svc qs w) = chat_calls w + length qs
  /\ clock_reads (rows_world svc qs w) = clock_reads w + length qs
  /\ slept (rows_world svc qs w) = (slept w + 2 * Z.of_nat (length qs))%Z
  /\ http_log (rows_world svc qs w)
     = (http_log w ++ map (fun q => (search_url (snd q), self_headers)) qs)%list
  /\ chat_log (rows_world svc qs w)
     = (chat_log w ++ requests_from svc (http_calls w) qs)%list.
Proof.
  induction qs as [ | [entity q] qs IH]; intros w.
  - simpl. rewrite !Nat.add_0_r, !app_nil_r, Z.add_0_r. repeat split.
  - cbn [rows_world]. destruct (IH (row_world svc q w)) as (Hh & Hc & Ht & Hs & Hl & Hp).
    rewrite Hh, Hc, Ht, Hs, Hl, Hp. cbn [length map requests_from snd].
    unfold row_world, add_sleep, tick_clock, log_chat, log_http.
    cbn [http_calls chat_calls clock_reads slept http_log chat_log].
    repeat split; try lia; rewrite <- app_assoc; reflexivity.
Qed.

Lemma records_from_queries svc qs :
  forall h c t, map record_query (records_from svc h c t qs) = map snd qs.
Proof.
  induction qs as [ | [entity q] qs IH]; intros h c t; simpl;
    [ | rewrite IH ]; reflexivity.
Qed.

(** A run that returns comes from queries that all rendered. *)
Lemma process_data_ok_inv svc data query_col template w results w' :
  process_data svc data query_col template w = (Ok results, w') ->
  exists qs,
    row_queries svc query_col template data = Ok qs
    /\ length qs = length data
    /\ results = records_from svc (http_calls w) (chat_calls w) (clock_reads w) qs
    /\ w' = rows_world svc qs w.
Proof.
  unfold process_data. intros Hrun.
  destruct (row_queries svc query_col template data) as [qs | e] eqn:Hq.
  - rewrite (process_rows_run svc _ _ _ _ _ _ Hq) in Hrun.
    injection Hrun as <- <-. exists qs. repeat split.
    symmetry. exact (Forall2_length (row_queries_ok svc _ _ _ _ Hq)).
  - pose proof (process_rows_raise svc _ _ _ [] w _ Hq) as Hr.
    rewrite Hrun in Hr. discriminate.
Qed.

(** X10.  A run that returns has made exactly one search request, one
    completion call and one clock read for each row, and has slept two
    seconds after each row: nothing is retried and nothing is
    skipped, whatever the services answered. *)
Theorem process_data_effects_per_row svc data query_col template w results w' :
  process_data svc data query_col template w = (Ok results, w') ->
  http_calls w' = http_calls w + length data
  /\ chat_calls w' = chat_calls w + length data
  /\ clock_reads w' = clock_reads w + length data
  /\ slept w' = (slept w + 2 * Z.of_nat (length data))%Z.
Proof.
  intros Hrun.
  destruct (process_data_ok_inv _ _ _ _ _ _ _ Hrun) as (qs & _ & Hlen & _ & ->).
  destruct (rows_world_effects svc qs w) as (Hh & Hc & Ht & Hs & _).
  rewrite Hh, Hc, Ht, Hs, Hlen. repeat split.
Qed.

Lemma process_data_effects_per_row_witness :
  Scenario.run = (Ok Scenario.results, snd Scenario.run)
  /\ http_calls (snd Scenario.run) = http_calls world0 + length Scenario.data
  /\ chat_calls (snd Scenario.run) = chat_calls world0 + length Scenario.data
  /\ clock_reads (snd Scenario.run) = clock_reads world0 + length Scenario.data
  /\ slept (snd Scenario.run) = (slept world0 + 2 * Z.of_nat (length Scenario.data))%Z.
Proof.
  assert (H : Scenario.run = (Ok Scenario.results, snd Scenario.run))
    by (vm_compute; reflexivity).
  split; [ exact H | ].
  exact (process_data_effects_per_row Scenario.services Scenario.data "company"
           Scenario.template world0 Scenario.results (snd Scenario.run) H).
Defined.

(** X11.  The search requests of a run that returns are, in order, one
    for each record: the fixed address followed by the query stored in
    the record, with the headers of the agent. *)
Theorem process_data_requests_match_records svc data query_col template w results w' :
  process_data svc data query_col template w = (Ok results, w') ->
  http_log w'
  = (http_log w
     ++ map (fun record => (search_url (record_query record), self_headers)) results)%list.
Proof.
  intros Hrun.
  destruct (process_data_ok_inv _ _ _ _ _ _ _ Hrun) as (qs & _ & _ & -> & ->).
  destruct (rows_world_effects svc qs w) as (_ & _ & _ & _ & Hl & _).
  rewrite Hl. f_equal.
  rewrite <- (map_map record_query (fun q => (search_url q, self_headers))).
  rewrite records_from_queries, map_map. reflexivity.
Qed.

Lemma process_data_requests_match_records_witness :
  Scenario.run = (Ok Scenario.results, snd Scenario.run)
  /\ http_log (snd Scenario.run)
     = (http_log world0
        ++ map (fun record => (search_url (record_query record), self_headers))
             Scenario.results)%list.
Proof.
  assert (H : Scenario.run = (Ok Scenario.results, snd Scenario.run))
    by (vm_compute; reflexivity).
  split; [ exact H | ].
  exact (process_data_requests_match_records Scenario.services Scenario.data "company"
           Scenario.template world0 Scenario.results (snd Scenario.run) H).
Defined.

Lemma requests_from_nth svc qs :
  forall h i entity q,
  nth_error qs i = Some (entity, q) ->
  nth_error (requests_from svc h qs) i
  = Some (completion_request (prompt_of q (search_web_text svc (h + i) q 3))).
Proof.
  induction qs as [ | [entity' q'] qs IH]; intros h [ | i] entity q H;
    simpl in *; try discriminate.
  - injection H as _ ->. rewrite Nat.add_0_r. reflexivity.
  - rewrite (IH _ _ _ _ H), Nat.add_succ_r. reflexivity.
Qed.

(** X12.  The completion request made for a row asks about that row's
    query and carries, as the search results, exactly the text that
    [search_web] returned for that query in the same row; the analysis
    stored in the row's record is the value of that request. *)
Theorem process_data_prompt_carries_search_text
    svc data query_col template w results w' i record :
  process_data svc data query_col template w = (Ok results, w') ->
  nth_error results i = Some record ->
  nth_error (chat_log w') (length (chat_log w) + i)
  = Some (completion_request
            (prompt_of (record_query record)
               (search_web_text svc (http_calls w + i) (record_query record) 3)))
  /\ dict_get "analysis" record
     = Some (analysis_of svc (chat_calls w + i) (record_query record)
               (search_web_text svc (http_calls w + i) (record_query record) 3)).
Proof.
  intros Hrun Hnth.
  destruct (process_data_ok_inv _ _ _ _ _ _ _ Hrun) as (qs & _ & _ & -> & ->).
  destruct (rows_world_effects svc qs w) as (_ & _ & _ & _ & _ & Hp).
  destruct (nth_error qs i) as [[entity q] | ] eqn:Hq.
  - rewrite (records_from_nth svc _ _ _ _ _ _ _ Hq) in Hnth.
    injection Hnth as <-.
    rewrite Hp, nth_error_app2, Nat.add_comm, Nat.add_sub by lia.
    rewrite (requests_from_nth svc _ _ _ _ _ Hq). split; reflexivity.
  - apply nth_error_None in Hq.
    assert (Hnone : nth_error
                      (records_from svc (http_calls w) (chat_calls w) (clock_reads w) qs) i
                    = None)
      by (apply nth_error_None; rewrite records_from_length; assumption).
    rewrite Hnone in Hnth. discriminate.
Qed.

Lemma process_data_prompt_carries_search_text_witness :
  Scenario.run = (Ok Scenario.results, snd Scenario.run)
  /\ exists record,
       nth_error Scenario.results 2 = Some record
       /\ nth_error (chat_log (snd Scenario.run)) (length (chat_log world0) + 2)
          = Some (completion_request
                    (prompt_of (record_query record)
                       (search_web_text Scenario.services (http_calls world0 + 2)
                          (record_query record) 3)))
       /\ dict_get "analysis" record
          = Some (analysis_of Scenario.services (chat_calls world0 + 2)
                    (record_query record)
                    (search_web_text Scenario.services (http_calls world0 + 2)
                       (record_query record) 3)).
Proof.
  assert (H : Scenario.run = (Ok Scenario.results, snd Scenario.run))
    by (vm_compute; reflexivity).
  split; [ exact H | ].
  destruct (nth_error Scenario.results 2) as [record | ] eqn:Hnth;
    [ | vm_compute in Hnth; discriminate Hnth ].
  exists record. split; [ reflexivity | ].
  exact (process_data_prompt_carries_search_text Scenario.services Scenario.data
           "company" Scenario.template world0 Scenario.results (snd Scenario.run)
           2 record H Hnth).
Defined.

Lemma process_rows_app svc query_col template pre :
  forall post results w,
  process_rows svc query_col template (pre ++ post) results w
  = bind (process_rows svc query_col template pre results)
      (process_rows svc query_col template post) w.
Proof.
  induction pre as [ | r pre IH]; intros post results w.
  - reflexivity.
  - simpl. unfold bind.
    destruct (process_row svc query_col template r results w) as [[results' | e] w1].
    + rewrite IH. reflexivity.
    + reflexivity.
Qed.

Lemma full_process_rows_app svc self progress_error total_rows query_col template pre :
  forall post results s,
  Orchestrator.process_rows svc self progress_error total_rows query_col template
    (pre ++ post)%list results s
  = Orchestrator.pbind
      (Orchestrator.process_rows svc self progress_error total_rows query_col template
         pre results)
      (Orchestrator.process_rows svc self progress_error total_rows query_col template post)
      s.
Proof.
  induction pre as [ | [idx r] pre IH]; intros post results s.
  - reflexivity.
  - cbn [app Orchestrator.process_rows]. unfold Orchestrator.pbind.
    destruct (Orchestrator.process_row svc self progress_error total_rows query_col
                template idx r results s) as [[results' | e] s1].
    + rewrite IH. reflexivity.
    + reflexivity.
Qed.

(** The loop in full over rows whose queries render and whose progress
    updates are taken, with the agent of the source file: the records
    and the world are those of the loop of [process_data] over the same
    rows, and two calls are drawn for each row. *)
Lemma full_process_rows_agree svc progress_error total_rows query_col template rows :
  forall results s qs,
  row_queries svc query_col template (map snd rows) = Ok qs ->
  Forall (fun ir => progress_error (fst ir) total_rows = None) rows ->
  Orchestrator.process_rows svc (Orchestrator.agent_of svc) progress_error total_rows
    query_col template rows results s
  = (Ok (results
         ++ records_from svc (http_calls (Orchestrator.world s))
              (chat_calls (Orchestrator.world s)) (clock_reads (Orchestrator.world s)) qs)%list,
     {| Orchestrator.world := rows_world svc qs (Orchestrator.world s);
        Orchestrator.page := (Orchestrator.page s ++ progress_calls total_rows rows)%list |}).
Proof.
  induction rows as [ | [idx r] rows IH]; intros results s qs Hq Hp.
  - simpl in Hq. injection Hq as <-. simpl. rewrite !app_nil_r.
    destruct s; reflexivity.
  - inversion Hp as [ | ir rs Hp1 Hprest]; subst. cbn [fst] in Hp1.
    cbn [map snd row_queries] in Hq. unfold rbind in Hq.
    destruct (row_query svc query_col template r) as [[entity q] | e] eqn:Hr;
      [ | discriminate ].
    destruct (row_queries svc query_col template (map snd rows)) as [qs' | e] eqn:Hqs;
      [ | discriminate ].
    injection Hq as <-.
    pose proof Hr as Hr'. apply row_query_inv in Hr' as [Hg Hf].
    cbn [Orchestrator.process_rows]. unfold Orchestrator.pbind.
    rewrite (full_process_row_run svc _ progress_error _ _ _ _ _ _ _ _ _ Hg Hf Hp1).
    change (Orchestrator.row_try svc (Orchestrator.agent_of svc) entity q)
      with (row_try svc entity q).
    rewrite row_try_run.
    rewrite (IH _ _ qs' eq_refl Hprest).
    cbn [Orchestrator.world Orchestrator.page records_from rows_world progress_calls
         flat_map fst].
    unfold progress_calls. rewrite <- !app_assoc. reflexivity.
Qed.

(** X13.  When the entity of a row cannot be read or its query cannot
    be rendered, the rows before it have already been processed in
    full: [process_data] ends with the exception and returns no record,
    but one search, one completion, one clock read and two seconds of
    sleep were spent on each earlier row; and the progress bar and the
    status text, drawn before the loop and updated for each earlier
    row, are left on the page, since the two calls that empty them are
    not reached. *)
Theorem process_data_failure_keeps_effects
    svc progress_error pre idx r post query_col template s e :
  Forall (fun ir =>
            is_ok (row_query svc query_col template (snd ir)) = true
            /\ progress_error (fst ir) (length (pre ++ (idx, r) :: post)%list) = None) pre ->
  row_query svc query_col template r = Raise e ->
  exists s',
    Orchestrator.process_data svc (Orchestrator.agent_of svc) progress_error
      (pre ++ (idx, r) :: post)%list query_col template s
    = (Raise e, s')
    /\ http_calls (Orchestrator.world s') = http_calls (Orchestrator.world s) + length pre
    /\ chat_calls (Orchestrator.world s') = chat_calls (Orchestrator.world s) + length pre
    /\ clock_reads (Orchestrator.world s') = clock_reads (Orchestrator.world s) + length pre
    /\ slept (Orchestrator.world s')
       = (slept (Orchestrator.world s) + 2 * Z.of_nat (length pre))%Z
    /\ Orchestrator.page s'
       = (Orchestrator.page s
          ++ [Orchestrator.Columns [3%Z; 1%Z]; Orchestrator.BarCreate 0;
              Orchestrator.StatusCreate]
          ++ progress_calls (length (pre ++ (idx, r) :: post)%list) pre)%list.
Proof.
  intros Hpre Hr.
  assert (Hq : exists qs, row_queries svc query_col template (map snd pre) = Ok qs).
  { apply row_queries_all_ok. apply Forall_map.
    eapply Forall_impl; [ | exact Hpre ]. intros ir [H _]. exact H. }
  destruct Hq as [qs Hq].
  assert (Hp : Forall (fun ir => progress_error (fst ir)
                                   (length (pre ++ (idx, r) :: post)%list) = None) pre).
  { eapply Forall_impl; [ | exact Hpre ]. intros ir [_ H]. exact H. }
  rewrite full_process_data_run, full_process_rows_app. unfold Orchestrator.pbind.
  rewrite (full_process_rows_agree svc progress_error _ _ _ _ _ _ qs Hq Hp).
  cbn [Orchestrator.process_rows]. unfold Orchestrator.pbind.
  rewrite (full_process_row_raise svc _ progress_error _ _ _ _ _ _ _ e (or_introl Hr)).
  eexists. split; [ reflexivity | ].
  cbn [Orchestrator.world Orchestrator.page].
  destruct (rows_world_effects svc qs (Orchestrator.world s)) as (Hh & Hc & Ht & Hs & _).
  assert (Hlen : length qs = length pre).
  { rewrite <- (Forall2_length (row_queries_ok svc _ _ _ _ Hq)). apply length_map. }
  rewrite Hh, Hc, Ht, Hs, Hlen, <- app_assoc. repeat split.
Qed.

Lemma process_data_failure_keeps_effects_witness :
  Forall (fun ir =>
            is_ok (row_query Formats.services "employees" Formats.template (snd ir)) = true
            /\ Orchestrator.no_progress_error (fst ir) (length Formats.data) = None)
    (firstn 1 Formats.data)
  /\ row_query Formats.services "employees" Formats.template [("employees", SStr "unknown")]
     = Raise (ValueError "Unknown format code 'd' for object of type 'str'")
  /\ exists s',
       Orchestrator.process_data Formats.services (Orchestrator.agent_of Formats.services)
         Orchestrator.no_progress_error Formats.data "employees" Formats.template
         Orchestrator.session0
       = (Raise (ValueError "Unknown format code 'd' for object of type 'str'"), s')
       /\ http_calls (Orchestrator.world s') = 1
       /\ slept (Orchestrator.world s') = 2%Z
       /\ Orchestrator.page s'
          = [Orchestrator.Columns [3%Z; 1%Z]; Orchestrator.BarCreate 0;
             Orchestrator.StatusCreate;
             Orchestrator.BarProgress (Orchestrator.LInt 0) 3;
             Orchestrator.StatusText (Orchestrator.LInt 0) 3].
Proof.
  assert (Hpre : Forall (fun ir =>
            is_ok (row_query Formats.services "employees" Formats.template (snd ir)) = true
            /\ Orchestrator.no_progress_error (fst ir)
                 (length (firstn 1 Formats.data
                          ++ (Orchestrator.LInt 1, [("employees", SStr "unknown")])
                             :: skipn 2 Formats.data)%list) = None)
            (firstn 1 Formats.data)) by (repeat constructor).
  assert (Hr : row_query Formats.services "employees" Formats.template
                 [("employees", SStr "unknown")]
               = Raise (ValueError "Unknown format code 'd' for object of type 'str'"))
    by reflexivity.
  split; [ exact Hpre | ]. split; [ exact Hr | ].
  destruct (process_data_failure_keeps_effects Formats.services
              Orchestrator.no_progress_error (firstn 1 Formats.data)
              (Orchestrator.LInt 1) [("employees", SStr "unknown")]
              (skipn 2 Formats.data) "employees" Formats.template Orchestrator.session0
              (ValueError "Unknown format code 'd' for object of type 'str'") Hpre Hr)
    as (s' & Hrun & Hh & _ & _ & Hs & Hpage).
  exists s'. split; [ exact Hrun | ]. split; [ exact Hh | ]. split; [ exact Hs | ].
  exact Hpage.
Defined.

(** X14.  The records of the first rows do not depend on the rows that
    follow: a run over [pre ++ post] that returns is the run over
    [pre], which returns the first records, continued by the run over
    [post] from the world that the first run left. *)
Theorem process_data_prefix svc pre post query_col template w results w' :
  process_data svc (pre ++ post) query_col template w = (Ok results, w') ->
  exists w1,
    process_data svc pre query_col template w = (Ok (firstn (length pre) results), w1)
    /\ process_rows svc query_col template post (firstn (length pre) results) w1
       = (Ok results, w')
    /\ length results = length pre + length post.
Proof.
  unfold process_data. intros Hrun.
  pose proof Hrun as Hrun'. rewrite process_rows_app in Hrun'. unfold bind in Hrun'.
  destruct (process_rows svc query_col template pre [] w) as [[first | e] w1] eqn:Hpre;
    [ | discriminate ].
  destruct (process_data_ok_inv svc pre query_col template w first w1 Hpre)
    as (qs & _ & Hlen & Hfirst & _).
  destruct (process_data_ok_inv svc (pre ++ post) query_col template w results w' Hrun)
    as (qs' & _ & Hlen' & Hres & _).
  assert (Hpost :
    exists rest, results = (first ++ rest)%list).
  { destruct (row_queries svc query_col template post) as [qp | e] eqn:Hqp.
    - rewrite (process_rows_run svc _ _ _ _ _ _ Hqp) in Hrun'.
      injection Hrun' as <- _. eexists; reflexivity.
    - pose proof (process_rows_raise svc _ _ _ first w1 _ Hqp) as Hr.
      rewrite Hrun' in Hr. discriminate. }
  destruct Hpost as [rest Hrest].
  assert (Hfl : length first = length pre)
    by (rewrite Hfirst, records_from_length; exact Hlen).
  assert (Hfn : firstn (length pre) results = first).
  { rewrite Hrest, <- Hfl, firstn_app, Nat.sub_diag, firstn_all. simpl.
    apply app_nil_r. }
  exists w1. rewrite Hfn. split; [ reflexivity | ]. split; [ exact Hrun' | ].
  rewrite Hres, records_from_length, Hlen', length_app. reflexivity.
Qed.

Lemma process_data_prefix_witness :
  process_data Scenario.services (firstn 1 Scenario.data ++ skipn 1 Scenario.data)
    "company" Scenario.template world0
  = (Ok Scenario.results, snd Scenario.run)
  /\ exists w1,
       process_data Scenario.services (firstn 1 Scenario.data) "company"
         Scenario.template world0
       = (Ok (firstn (length (firstn 1 Scenario.data)) Scenario.results), w1)
       /\ process_rows Scenario.services "company" Scenario.template
            (skipn 1 Scenario.data)
            (firstn (length (firstn 1 Scenario.data)) Scenario.results) w1
          = (Ok Scenario.results, snd Scenario.run)
       /\ length Scenario.results
          = length (firstn 1 Scenario.data) + length (skipn 1 Scenario.data).
Proof.
  assert (H : process_data Scenario.services
                (firstn 1 Scenario.data ++ skipn 1 Scenario.data)
                "company" Scenario.template world0
              = (Ok Scenario.results, snd Scenario.run))
    by (vm_compute; reflexivity).
  split; [ exact H | ].
  exact (process_data_prefix Scenario.services (firstn 1 Scenario.data)
           (skipn 1 Scenario.data) "company" Scenario.template world0
           Scenario.results (snd Scenario.run) H).
Defined.

(** ** The summary view *)

Lemma summary_loop_app pre :
  forall post acc rows,
  summary_loop pre acc = Ok rows ->
  summary_loop (pre ++ post) acc = summary_loop post rows.
Proof.
  induction pre as [ | r pre IH]; intros post acc rows H; simpl in *.
  - injection H as <-. reflexivity.
  - destruct (dict_has "analysis" r).
    + destruct (summary_row r) as [row | e]; simpl in *; [ | discriminate ].
      apply IH. assumption.
    + apply IH. assumption.
Qed.

(** X16.  The summary cannot be built when an analysis is not a
    dictionary, as when the completion text was a JSON list, string or
    number: at the first such record [AttributeError] is raised, and no
    summary is shown, however many records are well formed. *)
Theorem summary_data_not_a_dict pre r post entity v :
  Forall well_formed_record pre ->
  dict_get "entity" r = Some entity ->
  dict_get "analysis" r = Some v ->
  (forall a, v <> PDict a) ->
  summary_data (pre ++ r :: post)
  = Raise (AttributeError ("'" ++ type_name v ++ "' object has no attribute 'get'")).
Proof.
  intros Hpre He Ha Hv. unfold summary_data.
  destruct (summary_loop_run pre [] Hpre) as (rows & Hrun & _).
  rewrite (summary_loop_app _ _ _ _ Hrun). cbn [summary_loop].
  unfold dict_has. rewrite Ha. unfold summary_row, dict_item. rewrite He, Ha.
  destruct v; try reflexivity. exfalso. exact (Hv d eq_refl).
Qed.

Lemma summary_data_not_a_dict_witness :
  Forall well_formed_record (firstn 1 Scenario.results)
  /\ dict_get "entity" [("entity", PStr "Globex"); ("analysis", PList [PStr "no news"])]
     = Some (PStr "Globex")
  /\ dict_get "analysis" [("entity", PStr "Globex"); ("analysis", PList [PStr "no news"])]
     = Some (PList [PStr "no news"])
  /\ (forall a, PList [PStr "no news"] <> PDict a)
  /\ summary_data
       (firstn 1 Scenario.results
        ++ [("entity", PStr "Globex"); ("analysis", PList [PStr "no news"])]
           :: skipn 2 Scenario.results)
     = Raise (AttributeError "'list' object has no attribute 'get'").
Proof.
  assert (Hpre : Forall well_formed_record (firstn 1 Scenario.results)).
  { vm_compute. constructor; [ | constructor ].
    intros _. split; [ reflexivity | eexists; reflexivity ]. }
  assert (Hv : forall a, PList [PStr "no news"] <> PDict a) by (intros a H; discriminate H).
  split; [ exact Hpre | ]. split; [ reflexivity | ]. split; [ reflexivity | ].
  split; [ exact Hv | ].
  exact (summary_data_not_a_dict (firstn 1 Scenario.results)
           [("entity", PStr "Globex"); ("analysis", PList [PStr "no news"])]
           (skipn 2 Scenario.results) (PStr "Globex") (PList [PStr "no news"])
           Hpre eq_refl eq_refl Hv).
Defined.

(** X17.  From the orchestrator to the summary: when a run returns and
    every analysis it stored is a dictionary, the summary has exactly
    one row for each input row, in order, and the Entity of a row is
    the entity of the input row. *)
Theorem summary_of_run svc data query_col template w results w' :
  process_data svc data query_col template w = (Ok results, w') ->
  Forall (fun record => exists a, dict_get "analysis" record = Some (PDict a)) results ->
  exists rows,
    summary_data results = Ok rows
    /\ length rows = length data
    /\ Forall2 (fun r row =>
         exists entity,
           row_get r query_col = Ok entity
           /\ dict_get "Entity" row = Some (scalar_val entity)
           /\ dict_keys row = ["Entity"; "Main Findings"; "Confidence"; "Source Quality"])
         data rows.
Proof.
  intros Hrun Hdict.
  destruct (process_data_ok_inv _ _ _ _ _ _ _ Hrun) as (qs & Hq & Hlen & Hres & _).
  assert (Hkeys : Forall (fun record =>
                    dict_has "analysis" record = true
                    /\ dict_has "entity" record = true) results).
  { rewrite Hres. apply records_from_Forall. intros. split; reflexivity. }
  assert (Hwf : Forall well_formed_record results).
  { apply Forall_forall. intros record Hin _.
    pose proof (proj1 (Forall_forall _ _) Hkeys record Hin) as [_ He].
    pose proof (proj1 (Forall_forall _ _) Hdict record Hin) as Ha.
    split; assumption. }
  destruct (summary_loop_run results [] Hwf) as (rows & Hrows & Hall).
  assert (Hfilter : filter (dict_has "analysis") results = results).
  { apply forallb_filter_id. apply forallb_forall. intros record Hin.
    exact (proj1 (proj1 (Forall_forall _ _) Hkeys record Hin)). }
  rewrite Hfilter in Hall. simpl in Hrows.
  exists rows. split; [ exact Hrows | ].
  pose proof (Forall2_length Hall) as Hl.
  split; [ rewrite <- Hl, Hres, records_from_length; exact Hlen | ].
  pose proof (row_queries_ok svc _ _ _ _ Hq) as Hdq.
  rewrite Hres in Hall. clear - Hall Hdq.
  revert rows Hall.
  generalize (http_calls w), (chat_calls w), (clock_reads w).
  induction Hdq as [ | r [entity q] data qs Hr _ IH]; intros h c t rows Hall.
  - inversion Hall. constructor.
  - simpl in Hall. inversion Hall as [ | record row rs rws Hrow Hrest]; subst.
    constructor; [ | exact (IH _ _ _ _ Hrest) ].
    destruct Hrow as (entity' & a & He & _ & ->).
    apply row_query_inv in Hr as [Hg _].
    exists entity. split; [ exact Hg | ].
    simpl in He. injection He as <-. split; reflexivity.
Qed.

Lemma summary_of_run_witness :
  Scenario.run = (Ok Scenario.results, snd Scenario.run)
  /\ Forall (fun record => exists a, dict_get "analysis" record = Some (PDict a))
       Scenario.results
  /\ exists rows,
       summary_data Scenario.results = Ok rows
       /\ length rows = length Scenario.data
       /\ Forall2 (fun r row =>
            exists entity,
              row_get r "company" = Ok entity
              /\ dict_get "Entity" row = Some (scalar_val entity)
              /\ dict_keys row = ["Entity"; "Main Findings"; "Confidence"; "Source Quality"])
            Scenario.data rows.
Proof.
  assert (H : Scenario.run = (Ok Scenario.results, snd Scenario.run))
    by (vm_compute; reflexivity).
  assert (Hd : Forall (fun record => exists a, dict_get "analysis" record = Some (PDict a))
                 Scenario.results).
  { vm_compute. repeat constructor; eexists; reflexivity. }
  split; [ exact H | ]. split; [ exact Hd | ].
  exact (summary_of_run Scenario.services Scenario.data "company" Scenario.template
           world0 Scenario.results (snd Scenario.run) H Hd).
Defined.

(** X18.  A row whose completion failed is shown in the summary with
    the values of the error dictionary, not with "N/A": its Main
    Findings is [None], its Confidence "none" and its Source Quality
    "error", because the keys are present in the analysis. *)
Theorem summary_of_failed_completion results rows i record e :
  Forall well_formed_record results ->
  summary_data results = Ok rows ->
  nth_error (filter (dict_has "analysis") results) i = Some record ->
  dict_get "analysis" record = Some (llm_error e) ->
  exists entity,
    dict_get "entity" record = Some entity
    /\ nth_error rows i
       = Some [("Entity", entity);
               ("Main Findings", PNone);
               ("Confidence", PStr "none");
               ("Source Quality", PStr "error")].
Proof.
  intros Hwf Hrows Hnth Ha.
  destruct (summary_loop_run results [] Hwf) as (rows' & Hrun & Hall).
  unfold summary_data in Hrows. rewrite Hrun in Hrows. simpl in Hrows.
  injection Hrows as <-. clear Hrun Hwf.
  revert i Hnth. induction Hall as [ | r row rs rws Hrow _ IH]; intros i Hnth.
  - destruct i; discriminate.
  - destruct i as [ | i]; simpl in Hnth.
    + injection Hnth as ->.
      destruct Hrow as (entity & a & He & Ha' & ->).
      rewrite Ha in Ha'. injection Ha' as <-.
      exists entity. split; [ exact He | reflexivity ].
    + exact (IH _ Hnth).
Qed.

Lemma summary_of_failed_completion_witness :
  Forall well_formed_record Scenario.results
  /\ (exists rows record,
        summary_data Scenario.results = Ok rows
        /\ nth_error (filter (dict_has "analysis") Scenario.results) 1 = Some record
        /\ dict_get "analysis" record = Some (llm_error Scenario.JSONDecodeError)
        /\ exists entity,
             dict_get "entity" record = Some entity
             /\ nth_error rows 1
                = Some [("Entity", entity);
                        ("Main Findings", PNone);
                        ("Confidence", PStr "none");
                        ("Source Quality", PStr "error")]).
Proof.
  assert (Hwf : Forall well_formed_record Scenario.results).
  { vm_compute.
    constructor; [ | constructor; [ | constructor; [ | constructor ] ] ];
      intros _; (split; [ reflexivity | eexists; reflexivity ]). }
  split; [ exact Hwf | ].
  destruct (summary_data Scenario.results) as [rows | e] eqn:Hrows;
    [ | vm_compute in Hrows; discriminate Hrows ].
  destruct (nth_error (filter (dict_has "analysis") Scenario.results) 1)
    as [record | ] eqn:Hnth; [ | vm_compute in Hnth; discriminate Hnth ].
  assert (Ha : dict_get "analysis" record = Some (llm_error Scenario.JSONDecodeError)).
  { vm_compute in Hnth. injection Hnth as <-. reflexivity. }
  exists rows, record. split; [ reflexivity | ]. split; [ reflexivity | ].
  split; [ exact Ha | ].
  exact (summary_of_failed_completion Scenario.results rows 1 record
           Scenario.JSONDecodeError Hwf Hrows Hnth Ha).
Defined.

(** ** [display_results] and [main] *)

Lemma detail_loop_run results :
  forall s,
  Forall (fun r => dict_has "entity" r = true) results ->
  detail_loop results s = (Ok tt, (s ++ map detail_of results)%list).
Proof.
  induction results as [ | r results IH]; intros s H.
  - simpl. rewrite app_nil_r. reflexivity.
  - inversion H as [ | r' rs He Hrest]; subst.
    cbn [detail_loop]. unfold ui_bind, ui_lift, show, dict_item.
    unfold dict_has in He.
    destruct (dict_get "entity" r) as [entity | ] eqn:Hde; [ | discriminate ].
    rewrite (IH _ Hrest). cbn [map]. unfold detail_of at 2. rewrite Hde.
    rewrite <- app_assoc. reflexivity.
Qed.

(** X19.  For records that all have an entity and whose analyses are
    dictionaries, [display_results] does not raise and puts on the
    page, in this order: the heading, the two tabs, the summary table
    (left out when no record has an analysis), and one expander for
    each record, labelled with the record's entity and holding the
    whole record. *)
Theorem display_results_page results s :
  Forall well_formed_record results ->
  Forall (fun r => dict_has "entity" r = true) results ->
  exists rows,
    summary_data results = Ok rows
    /\ length rows = length (filter (dict_has "analysis") results)
    /\ display_results results s = (Ok tt, (s ++ results_page rows results)%list).
Proof.
  intros Hwf Hent.
  destruct (summary_loop_run results [] Hwf) as (rows & Hrun & Hall).
  simpl in Hrun. exists rows. split; [ exact Hrun | ].
  split; [ symmetry; exact (Forall2_length Hall) | ].
  unfold display_results, ui_bind, show, ui_lift.
  unfold summary_data. rewrite Hrun.
  unfold results_page.
  destruct rows as [ | row rows]; cbn [ui_ret];
    rewrite (detail_loop_run _ _ Hent); rewrite <- !app_assoc; reflexivity.
Qed.

Lemma display_results_page_witness :
  Forall well_formed_record Scenario.results
  /\ Forall (fun r => dict_has "entity" r = true) Scenario.results
  /\ exists rows,
       summary_data Scenario.results = Ok rows
       /\ length rows = length (filter (dict_has "analysis") Scenario.results)
       /\ display_results Scenario.results []
          = (Ok tt, ([] ++ results_page rows Scenario.results)%list).
Proof.
  assert (Hwf : Forall well_formed_record Scenario.results).
  { vm_compute.
    constructor; [ | constructor; [ | constructor; [ | constructor ] ] ];
      intros _; (split; [ reflexivity | eexists; reflexivity ]). }
  assert (He : Forall (fun r => dict_has "entity" r = true) Scenario.results)
    by (vm_compute; repeat constructor).
  split; [ exact Hwf | ]. split; [ exact He | ].
  exact (display_results_page Scenario.results [] Hwf He).
Defined.

Lemma summary_data_raise_display results s e :
  summary_data results = Raise e ->
  display_results results s
  = (Raise e, (s ++ [Subheader "Analysis Results";
                     Tabs ["Summary View"; "Detailed View"]])%list).
Proof.
  intros H. unfold display_results, ui_bind, show, ui_lift. rewrite H.
  rewrite <- app_assoc. reflexivity.
Qed.

(** X21.  When a run returns but one of its analyses is not a
    dictionary (the completion text was, say, a JSON list), the
    analysis block of [main] shows the heading, the tabs and the error
    box of an [AttributeError], and neither the table, nor the details,
    nor a download button: the records of the whole run are lost to the
    user. *)
Theorem main_analysis_display_failure
    svc exp data query_column search_template w s results w' pre r post v :
  process_data svc data query_column search_template w = (Ok results, w') ->
  results = (pre ++ r :: post)%list ->
  Forall (fun record => exists a, dict_get "analysis" record = Some (PDict a)) pre ->
  dict_get "analysis" r = Some v ->
  (forall a, v <> PDict a) ->
  main_analysis svc exp data query_column search_template w s
  = (w', (s ++ [Subheader "Analysis Results";
                Tabs ["Summary View"; "Detailed View"];
                ErrorBox ("An error occurred: '" ++ type_name v
                          ++ "' object has no attribute 'get'")])%list).
Proof.
  intros Hrun Hres Hpre Ha Hv.
  assert (Hkeys : Forall (fun record => dict_has "entity" record = true) results).
  { destruct (process_data_ok_inv _ _ _ _ _ _ _ Hrun) as (qs & _ & _ & -> & _).
    apply records_from_Forall. reflexivity. }
  rewrite Hres in Hkeys. apply Forall_app in Hkeys as [Hkpre Hkr].
  inversion Hkr as [ | r' rs Her _]; subst r' rs.
  unfold dict_has in Her.
  destruct (dict_get "entity" r) as [entity | ] eqn:Hde; [ | discriminate ].
  assert (Hwf : Forall well_formed_record pre).
  { apply Forall_forall. intros record Hin _. split.
    - exact (proj1 (Forall_forall _ _) Hkpre record Hin).
    - exact (proj1 (Forall_forall _ _) Hpre record Hin). }
  pose proof (summary_data_not_a_dict pre r post entity v Hwf Hde Ha Hv) as Hsum.
  unfold main_analysis. rewrite Hrun. unfold show_and_export, ui_bind at 1.
  rewrite Hres, (summary_data_raise_display _ _ _ Hsum).
  rewrite <- app_assoc. reflexivity.
Qed.

Lemma main_analysis_display_failure_witness :
  ListAnswer.run = (Ok [ListAnswer.record], snd ListAnswer.run)
  /\ dict_get "analysis" ListAnswer.record = Some (PList [])
  /\ (forall a, PList [] <> PDict a)
  /\ main_analysis ListAnswer.services Exports.fixed ListAnswer.data "company"
       Scenario.template world0 []
     = (snd ListAnswer.run,
        ([] ++ [Subheader "Analysis Results";
                Tabs ["Summary View"; "Detailed View"];
                ErrorBox ("An error occurred: '" ++ type_name (PList [])
                          ++ "' object has no attribute 'get'")])%list).
Proof.
  assert (H : ListAnswer.run = (Ok [ListAnswer.record], snd ListAnswer.run))
    by (vm_compute; reflexivity).
  assert (Hv : forall a, PList [] <> PDict a) by (intros a Ha; discriminate Ha).
  split; [ exact H | ]. split; [ reflexivity | ]. split; [ exact Hv | ].
  exact (main_analysis_display_failure ListAnswer.services Exports.fixed ListAnswer.data
           "company" Scenario.template world0 [] [ListAnswer.record]
           (snd ListAnswer.run) [] ListAnswer.record [] (PList [])
           H eq_refl (Forall_nil _) eq_refl Hv).
Defined.

(** X22.  When a run returns and every analysis is a dictionary, the
    analysis block of [main] shows the page of [display_results] and
    then the exports: the CSV button, then the JSON button, each with
    the text its exporter gave for the records of the run.  An export
    that raises puts the error box in the place of its button; the page
    and a CSV button already shown stay. *)
Theorem main_analysis_exports svc exp data query_column search_template w s results w' :
  process_data svc data query_column search_template w = (Ok results, w') ->
  Forall (fun record => exists a, dict_get "analysis" record = Some (PDict a)) results ->
  exists rows,
    summary_data results = Ok rows
    /\ length rows = length data
    /\ main_analysis svc exp data query_column search_template w s
       = (w',
          (s ++ results_page rows results
             ++ match to_csv exp results with
                | Raise e => [ErrorBox ("An error occurred: " ++ exn_str e)]
                | Ok csv =>
                    csv_button csv
                    :: match json_dumps exp results with
                       | Raise e => [ErrorBox ("An error occurred: " ++ exn_str e)]
                       | Ok json => [json_button json]
                       end
                end)%list).
Proof.
  intros Hrun Hdict.
  destruct (summary_of_run _ _ _ _ _ _ _ Hrun Hdict) as (rows & Hrows & Hlen & _).
  assert (Hkeys : Forall (fun record => dict_has "entity" record = true) results).
  { destruct (process_data_ok_inv _ _ _ _ _ _ _ Hrun) as (qs & _ & _ & -> & _).
    apply records_from_Forall. reflexivity. }
  assert (Hwf : Forall well_formed_record results).
  { apply Forall_forall. intros record Hin _. split.
    - exact (proj1 (Forall_forall _ _) Hkeys record Hin).
    - exact (proj1 (Forall_forall _ _) Hdict record Hin). }
  destruct (display_results_page results s Hwf Hkeys) as (rows' & Hrows' & _ & Hshow).
  rewrite Hrows in Hrows'. injection Hrows' as <-.
  exists rows. split; [ exact Hrows | ]. split; [ exact Hlen | ].
  unfold main_analysis. rewrite Hrun.
  unfold show_and_export, ui_bind, ui_lift, show. rewrite Hshow.
  unfold csv_button, json_button.
  destruct (to_csv exp results) as [csv | e].
  - destruct (json_dumps exp results) as [json | e];
      rewrite <- !app_assoc; reflexivity.
  - rewrite <- !app_assoc. reflexivity.
Qed.

Lemma main_analysis_exports_witness :
  Scenario.run = (Ok Scenario.results, snd Scenario.run)
  /\ Forall (fun record => exists a, dict_get "analysis" record = Some (PDict a))
       Scenario.results
  /\ exists rows,
       summary_data Scenario.results = Ok rows
       /\ length rows = length Scenario.data
       /\ main_analysis Scenario.services Exports.no_json Scenario.data "company"
            Scenario.template world0 []
          = (snd Scenario.run,
             ([] ++ results_page rows Scenario.results
                 ++ match to_csv Exports.no_json Scenario.results with
                    | Raise e => [ErrorBox ("An error occurred: " ++ exn_str e)]
                    | Ok csv =>
                        csv_button csv
                        :: match json_dumps Exports.no_json Scenario.results with
                           | Raise e => [ErrorBox ("An error occurred: " ++ exn_str e)]
                           | Ok json => [json_button json]
                           end
                    end)%list).
Proof.
  assert (H : Scenario.run = (Ok Scenario.results, snd Scenario.run))
    by (vm_compute; reflexivity).
  assert (Hd : Forall (fun record => exists a, dict_get "analysis" record = Some (PDict a))
                 Scenario.results).
  { vm_compute. repeat constructor; eexists; reflexivity. }
  split; [ exact H | ]. split; [ exact Hd | ].
  exact (main_analysis_exports Scenario.services Exports.no_json Scenario.data "company"
           Scenario.template world0 [] Scenario.results (snd Scenario.run) H Hd).
Defined.

Lemma py_str_scalar c : py_str (scalar_val c) = scalar_str c.
Proof. destruct c as [s | z | r | []]; reflexivity. Qed.

(** X23.  For the records of a run, the label of each expander is
    "Details for: " followed by the text of the entity of the input
    row, the same text that was put into the row's query. *)
Theorem detail_labels_of_run svc data query_column search_template w results w' :
  process_data svc data query_column search_template w = (Ok results, w') ->
  Forall2 (fun r record =>
             exists entity,
               row_get r query_column = Ok entity
               /\ detail_of record
                  = Expander ("Details for: " ++ scalar_str entity) record)
          data results.
Proof.
  intros Hrun.
  destruct (process_data_ok_inv _ _ _ _ _ _ _ Hrun) as (qs & Hq & _ & -> & _).
  apply records_from_Forall2 with (2 := row_queries_ok svc _ _ _ _ Hq).
  intros r entity q h c t Hr. apply row_query_inv in Hr as [Hg _].
  exists entity. split; [ exact Hg | ].
  unfold detail_of, row_record. cbn [dict_get String.eqb Ascii.eqb Bool.eqb].
  rewrite py_str_scalar. reflexivity.
Qed.

Lemma detail_labels_of_run_witness :
  Scenario.run = (Ok Scenario.results, snd Scenario.run)
  /\ Forall2 (fun r record =>
                exists entity,
                  row_get r "company" = Ok entity
                  /\ detail_of record
                     = Expander ("Details for: " ++ scalar_str entity) record)
             Scenario.data Scenario.results.
Proof.
  assert (H : Scenario.run = (Ok Scenario.results, snd Scenario.run))
    by (vm_compute; reflexivity).
  split; [ exact H | ].
  exact (detail_labels_of_run Scenario.services Scenario.data "company"
           Scenario.template world0 Scenario.results (snd Scenario.run) H).
Defined.
